(** * Dinero expense logger: a shallow embedding of [Script.js]

    The script keeps an in-memory array of expense records, fills it from a
    form, renders a total and a date-sorted list, and toggles two page
    containers.  The embedding keeps the script's names.  The browser
    built-ins the script calls ([parseFloat], [Number.prototype.toFixed],
    [new Date(string)], [Array.prototype.sort], [classList]) are written out
    in module [JS] after ECMA-262 and the DOM standard. *)

From Stdlib Require Import ZArith QArith Qround List String Ascii Bool Lia.
From Stdlib Require Import Sorting.Sorted Sorting.Permutation.
From Stdlib Require Import Floats.SpecFloat Numbers.DecimalString.
Import ListNotations.

Open Scope string_scope.
Open Scope Z_scope.

(* ================================================================== *)
(** * The JavaScript platform *)
(* ================================================================== *)

Module JS.

(** ** Numbers: IEEE 754 binary64 *)

Definition number : Type := spec_float.

Definition prec : Z := 53.
Definition emax : Z := 1024.

Definition NaN : number := S754_nan.
Definition pos_zero : number := S754_zero false.
Definition Infinity : number := S754_infinity false.

(** [x + y] on Numbers, round to nearest, ties to even. *)
Definition add (x y : number) : number := SFadd prec emax x y.

(** [ToBoolean] of a Number: [NaN], [+0] and [-0] are falsy. *)
Definition number_truthy (x : number) : bool :=
  match x with
  | S754_nan | S754_zero _ => false
  | _ => true
  end.

(** [ToBoolean] of a String: only the empty string is falsy. *)
Definition string_truthy (s : string) : bool :=
  match s with
  | EmptyString => false
  | String _ _ => true
  end.

Definition is_finite (x : number) : bool :=
  match x with
  | S754_zero _ | S754_finite _ _ _ => true
  | _ => false
  end.

(** The mathematical value of a finite Number. *)
Definition to_Q (x : number) : Q :=
  match x with
  | S754_finite s m e =>
      let v := (inject_Z (Zpos m) * Qpower 2 e)%Q in
      if s then Qopp v else v
  | _ => 0%Q
  end.

(** The Number nearest to [(-1)^neg * m * 10^e] (ties to even), the
    "rounded value" of a decimal literal.  The quotient of the two integers
    is rounded once, by the division of IEEE 754. *)
Definition of_decimal (neg : bool) (m : Z) (e : Z) : number :=
  match m with
  | Zpos p =>
      if 0 <=? e
      then SFdiv prec emax (S754_finite neg (p * Z.to_pos (10 ^ e)) 0)
                           (S754_finite false 1 0)
      else SFdiv prec emax (S754_finite neg p 0)
                           (S754_finite false (Z.to_pos (10 ^ (- e))) 0)
  | _ => S754_zero neg
  end.

(** ** Characters *)

Definition is_digit (c : ascii) : bool :=
  let n := N_of_ascii c in ((48 <=? n) && (n <=? 57))%N.

Definition digit_val (c : ascii) : Z := Z.of_N (N_of_ascii c) - 48.

(** [StrWhiteSpaceChar] among the code units below 256: TAB, LF, VT, FF, CR,
    SP and NBSP. *)
Definition is_white (c : ascii) : bool :=
  let n := N_of_ascii c in
  ((9 <=? n) && (n <=? 13) || (n =? 32) || (n =? 160))%N.

Fixpoint skip_white (s : string) : string :=
  match s with
  | String c r => if is_white c then skip_white r else s
  | EmptyString => EmptyString
  end.

Fixpoint take_digits (s : string) : string :=
  match s with
  | String c r => if is_digit c then String c (take_digits r) else EmptyString
  | EmptyString => EmptyString
  end.

Fixpoint drop_digits (s : string) : string :=
  match s with
  | String c r => if is_digit c then drop_digits r else s
  | EmptyString => EmptyString
  end.

(** The value of a string of decimal digits, most significant first. *)
Fixpoint digits_value (acc : Z) (s : string) : Z :=
  match s with
  | String c r => digits_value (10 * acc + digit_val c) r
  | EmptyString => acc
  end.

(** No decimal digit occurs in the string. *)
Fixpoint no_digit (s : string) : bool :=
  match s with
  | String c r => (negb (is_digit c) && no_digit r)%bool
  | EmptyString => true
  end.

(** ** [parseFloat]

    ECMA-262, parseFloat(string): leading white space is trimmed, the longest
    prefix that is a [StrDecimalLiteral] is taken, and its value is rounded
    to a Number; [NaN] when no prefix is one. *)

(** An optional sign. *)
Definition scan_sign (s : string) : bool * string :=
  match s with
  | String "+" r => (false, r)
  | String "-" r => (true, r)
  | _ => (false, s)
  end.

(** [ExponentPart], when one starts the string: [e] or [E], an optional sign
    and at least one digit.  Without a digit there is no exponent part and
    the literal ends before the [e]. *)
Definition scan_exponent (s : string) : Z :=
  match s with
  | String c r =>
      if (Ascii.eqb c "e" || Ascii.eqb c "E")%bool then
        let '(neg, r') := scan_sign r in
        match take_digits r' with
        | EmptyString => 0
        | ds => if neg then - digits_value 0 ds else digits_value 0 ds
        end
      else 0
  | EmptyString => 0
  end.

(** The digits after the decimal point, when the rest of the string starts
    with one. *)
Definition scan_fraction (s : string) : string :=
  match s with
  | String "." r => take_digits r
  | _ => EmptyString
  end.

Definition after_fraction (s : string) : string :=
  match s with
  | String "." r => drop_digits r
  | _ => s
  end.

(** [StrUnsignedDecimalLiteral] other than [Infinity]: digits, an optional
    point and digits, an optional exponent; at least one digit before the
    exponent.  [None] when the string does not start with one. *)
Definition scan_unsigned (s : string) : option (Z * Z) :=
  let ip := take_digits s in
  let r1 := drop_digits s in
  let fp := scan_fraction r1 in
  match (ip ++ fp)%string with
  | EmptyString => None
  | ds =>
      let ex := scan_exponent (after_fraction r1) in
      Some (digits_value 0 ds, ex - Z.of_nat (String.length fp))
  end.

Definition parseFloat (input : string) : number :=
  let '(neg, s) := scan_sign (skip_white input) in
  if String.prefix "Infinity" s then S754_infinity neg
  else
    match scan_unsigned s with
    | Some (m, e) => of_decimal neg m e
    | None => NaN
    end.

(** ** Printing *)

(** The decimal representation of a natural number. *)
Definition decimal (n : Z) : string := NilZero.string_of_uint (N.to_uint (Z.to_N n)).

Fixpoint zeros (k : nat) : string :=
  match k with
  | O => EmptyString
  | S k' => String "0" (zeros k')
  end.

(** The integer value of a finite Number that has no fractional part. *)
Definition integer_value (m : positive) (e : Z) : Z := Zpos m * 2 ^ e.

(** Number::toString for a positive finite [x = m * 2^e] with [x >= 10^21]
    (an integer, written with an exponent).  ECMA-262 asks for integers
    [n], [k], [s] with [10^(k-1) <= s < 10^k], [s * 10^(n-k)] rounding to
    [x], and [k] as small as possible; of two such [s] the one nearer to
    [x].  [shortest fuel k] tries [k], [k + 1], ..., [k + fuel] digits; 17
    digits always suffice. *)
Definition candidate (x : number) (s n : Z) (k : nat) : bool :=
  match SFcompare (of_decimal false s (n - Z.of_nat k)) x with
  | Some Eq => true
  | _ => false
  end.

Fixpoint shortest (fuel : nat) (k : nat) (x : number) (X n0 : Z) : Z * Z :=
  let p := 10 ^ (n0 - Z.of_nat k) in
  let lo := X / p in
  let hi := lo + 1 in
  let '(shi, nhi) := if hi =? 10 ^ Z.of_nat k
                     then (10 ^ (Z.of_nat k - 1), n0 + 1) else (hi, n0) in
  let oklo := candidate x lo n0 k in
  let okhi := candidate x shi nhi k in
  let nearer_lo := (X - lo * p <=? hi * p - X) in
  if (oklo && (negb okhi || nearer_lo))%bool then (lo, n0)
  else if okhi then (shi, nhi)
  else match fuel with
       | O => (lo, n0)
       | S fuel' => shortest fuel' (S k) x X n0
       end.

Definition exponent_string (m : positive) (e : Z) : string :=
  let X := integer_value m e in
  let n0 := Z.of_nat (String.length (decimal X)) in
  let '(s, n) := shortest 16 1 (S754_finite false m e) X n0 in
  let ds := decimal s in
  let mant := match ds with
              | String d EmptyString => ds
              | String d r => String d (String "." r)
              | EmptyString => ds
              end in
  (mant ++ "e+" ++ decimal (n - 1))%string.

(** Number::toString of a Number that is not finite. *)
Definition nonfinite_string (x : number) : string :=
  match x with
  | S754_infinity false => "Infinity"
  | S754_infinity true => "-Infinity"
  | _ => "NaN"
  end.

(** ** [Number.prototype.toFixed]

    For a non-negative real [x < 10^21]: the integer [n] with [n / 10^f]
    nearest to [x], the larger one of two; its digits, left-padded with
    zeros to [f + 1] digits, a point before the last [f]. *)
Definition fixed_digits (f : nat) (x : Q) : string :=
  let n := Qfloor (x * inject_Z (10 ^ Z.of_nat f) + (1 # 2)) in
  let m := decimal n in
  match f with
  | O => m
  | _ =>
      let k := String.length m in
      let m' := if (k <=? f)%nat then (zeros (f + 1 - k) ++ m)%string else m in
      let k' := String.length m' in
      (substring 0 (k' - f) m' ++ "." ++ substring (k' - f) f m')%string
  end.

Definition toFixed (x : number) (f : nat) : string :=
  match x with
  | S754_zero _ => fixed_digits f 0
  | S754_finite s m e =>
      let sign := if s then "-" else "" in
      let ax := to_Q (S754_finite false m e) in
      if Qle_bool (inject_Z (10 ^ 21)) ax
      then (sign ++ exponent_string m e)%string
      else (sign ++ fixed_digits f ax)%string
  | _ => nonfinite_string x
  end.


(** ** Dates

    A Date holds a time value: milliseconds since 1970-01-01T00:00Z, or NaN
    for an invalid date, here [option Z].  Time values are integers of
    magnitude at most 8.64e15, which binary64 holds exactly. *)

Definition msPerDay : Z := 86400000.

Definition is_leap (y : Z) : bool :=
  ((y mod 4 =? 0) && negb (y mod 100 =? 0) || (y mod 400 =? 0))%bool.

Definition days_in_month (y m : Z) : Z :=
  if m =? 2 then (if is_leap y then 29 else 28)
  else if ((m =? 4) || (m =? 6) || (m =? 9) || (m =? 11))%bool then 30
  else 31.

(** Days from 1970-01-01 to the given day of the proleptic Gregorian
    calendar (MakeDay). *)
Definition days_from_civil (y m d : Z) : Z :=
  let y' := if m <=? 2 then y - 1 else y in
  let era := y' / 400 in
  let yoe := y' - era * 400 in
  let doy := (153 * (if 2 <? m then m - 3 else m + 9) + 2) / 5 + d - 1 in
  let doe := yoe * 365 + yoe / 4 - yoe / 100 + doy in
  era * 146097 + doe - 719468.

(** Year, month and day of a day number (YearFromTime, MonthFromTime,
    DateFromTime). *)
Definition civil_from_days (z : Z) : Z * Z * Z :=
  let z' := z + 719468 in
  let era := z' / 146097 in
  let doe := z' - era * 146097 in
  let yoe := (doe - doe / 1460 + doe / 36524 - doe / 146096) / 365 in
  let doy := doe - (365 * yoe + yoe / 4 - yoe / 100) in
  let mp := (5 * doy + 2) / 153 in
  let d := doy - (153 * mp + 2) / 5 + 1 in
  let m := if mp <? 10 then mp + 3 else mp - 9 in
  (if m <=? 2 then yoe + era * 400 + 1 else yoe + era * 400, m, d).

Definition all_digits (s : string) : bool :=
  match drop_digits s with
  | EmptyString => true
  | _ => false
  end.

(** [Date.parse] on the date-only forms of the Date Time String Format,
    [YYYY], [YYYY-MM] and [YYYY-MM-DD], which denote midnight UTC.  A date
    input yields the third form.  What engines accept beyond the standard
    format is implementation-defined and is not modelled: every other string,
    and a day its month does not have, is an invalid date here. *)
Definition Date_parse (s : string) : option Z :=
  let yyyy := substring 0 4 s in
  let mm := substring 5 2 s in
  let dd := substring 8 2 s in
  let y := digits_value 0 yyyy in
  let m := digits_value 0 mm in
  let d := digits_value 0 dd in
  let year_ok := ((String.length yyyy =? 4)%nat && all_digits yyyy)%bool in
  let month_ok := (String.eqb (substring 4 1 s) "-" && (String.length mm =? 2)%nat
                   && all_digits mm && (1 <=? m) && (m <=? 12))%bool in
  let day_ok := (String.eqb (substring 7 1 s) "-" && (String.length dd =? 2)%nat
                 && all_digits dd && (1 <=? d) && (d <=? days_in_month y m))%bool in
  match String.length s with
  | 4%nat => if year_ok then Some (days_from_civil y 1 1 * msPerDay) else None
  | 7%nat => if (year_ok && month_ok)%bool
             then Some (days_from_civil y m 1 * msPerDay) else None
  | 10%nat => if (year_ok && month_ok && day_ok)%bool
              then Some (days_from_civil y m d * msPerDay) else None
  | _ => None
  end.

(** [toLocaleDateString('en-US', { timeZone: 'UTC' })]: month, day and year
    of the era as numbers, [M/D/Y]. *)
Definition toLocaleDateString (t : option Z) : string :=
  match t with
  | None => "Invalid Date"
  | Some ms =>
      let '(y, m, d) := civil_from_days (ms / msPerDay) in
      let yoe := if 1 <=? y then y else 1 - y in
      (decimal m ++ "/" ++ decimal d ++ "/" ++ decimal yoe)%string
  end.

Definition pad (width : nat) (s : string) : string :=
  (zeros (width - String.length s) ++ s)%string.

(** The value a date input takes from the setter of [valueAsDate]: the UTC
    day of the time value as [YYYY-MM-DD], or empty outside the years of a
    date string. *)
Definition date_value_of_time (ms : Z) : string :=
  let '(y, m, d) := civil_from_days (ms / msPerDay) in
  if ((1 <=? y) && (y <=? 275760))%bool
  then (pad 4 (decimal y) ++ "-" ++ pad 2 (decimal m) ++ "-" ++ pad 2 (decimal d))%string
  else "".

(** ** [Array.prototype.sort] with a comparator

    [comparefn a b] is a Number of which sort reads the sign, with NaN read
    as [+0]; here an [option Z].  The sort is stable.  When the comparator is
    not consistent the standard leaves the order implementation-defined; the
    model is the stable insertion sort that engines run on short arrays. *)
Section Sort.
Context {A : Type}.
Variable comparefn : A -> A -> option Z.

(** [true] when [comparefn a b > 0]: [b] is to come before [a]. *)
Definition comes_after (a b : A) : bool :=
  match comparefn a b with
  | Some v => 0 <? v
  | None => false
  end.

Fixpoint insert (x : A) (l : list A) : list A :=
  match l with
  | [] => [x]
  | y :: l' => if comes_after x y then y :: insert x l' else x :: l
  end.

Fixpoint sort (l : list A) : list A :=
  match l with
  | [] => []
  | x :: l' => insert x (sort l')
  end.
End Sort.

(** ** [DOMTokenList] *)

Definition contains (cl : list string) (token : string) : bool :=
  existsb (String.eqb token) cl.

Definition classList_add (cl : list string) (token : string) : list string :=
  if contains cl token then cl else cl ++ [token].

Definition classList_remove (cl : list string) (token : string) : list string :=
  filter (fun t => negb (String.eqb token t)) cl.

End JS.


(* ================================================================== *)
(** * The script's state *)
(* ================================================================== *)

(** An element of [expenses]. *)
Record Expense := mkExpense {
  id : Z;
  description : string;
  amount : JS.number;
  category : string;
  date : string
}.

(** An element of the document as the view switcher sees it: its [id]
    attribute (empty when it has none), its class tokens and its
    [data-page] attribute ([None] for [undefined]). *)
Record Element := mkElement {
  el_id : string;
  classList : list string;
  dataset_page : option string
}.

Record MessageBox := mkMessageBox {
  textContent : string;
  mb_classList : list string;
  backgroundColor : string
}.

(** A form control: its current value and the value [reset()] restores. *)
Record Field := mkField {
  value : string;
  defaultValue : string
}.

Record Form := mkForm {
  form_description : Field;
  form_amount : Field;
  form_category : Field;
  form_date : Field
}.

(** A child of the list container. *)
Inductive Node :=
| EmptyState
    (* the element found under the id [empty-state] at load *)
| CreatedP (p_id p_className p_textContent : string)
    (* the paragraph [updateUI] creates when that element is missing *)
| ExpenseEl (className description category date amount : string)
    (* a row, with the four values its markup interpolates *).

Inductive Timer := HideMessage (delay : Z).

Inductive Error := TypeError.

(** The bindings of the script's closure and the parts of the document they
    refer to.  [pages] and [navLinks] are the elements of [elements] with the
    class token [page], respectively [nav-link]: the script never adds or
    removes these two tokens, so the node lists taken at load keep their
    members.  [emptyStateEl] and [dateInput] say whether the lookup at load
    found an element.  [clock] is the system clock, read [clock_reads] times
    so far. *)
Record State := mkState {
  expenses : list Expense;
  elements : list Element;
  expenseForm : Form;
  dateInput : bool;
  totalExpenditureEl : string;
  expenseListEl : list Node;
  emptyStateEl : bool;
  messageBox : MessageBox;
  timers : list Timer;
  clock : nat -> Z;
  clock_reads : nat
}.

Definition set_expenses (v : list Expense) (st : State) : State :=
  mkState v (elements st) (expenseForm st) (dateInput st)
    (totalExpenditureEl st) (expenseListEl st) (emptyStateEl st)
    (messageBox st) (timers st) (clock st) (clock_reads st).

Definition set_elements (v : list Element) (st : State) : State :=
  mkState (expenses st) v (expenseForm st) (dateInput st)
    (totalExpenditureEl st) (expenseListEl st) (emptyStateEl st)
    (messageBox st) (timers st) (clock st) (clock_reads st).

Definition set_expenseForm (v : Form) (st : State) : State :=
  mkState (expenses st) (elements st) v (dateInput st)
    (totalExpenditureEl st) (expenseListEl st) (emptyStateEl st)
    (messageBox st) (timers st) (clock st) (clock_reads st).

Definition set_totalExpenditureEl (v : string) (st : State) : State :=
  mkState (expenses st) (elements st) (expenseForm st) (dateInput st)
    v (expenseListEl st) (emptyStateEl st)
    (messageBox st) (timers st) (clock st) (clock_reads st).

Definition set_expenseListEl (v : list Node) (st : State) : State :=
  mkState (expenses st) (elements st) (expenseForm st) (dateInput st)
    (totalExpenditureEl st) v (emptyStateEl st)
    (messageBox st) (timers st) (clock st) (clock_reads st).

Definition set_messageBox (v : MessageBox) (st : State) : State :=
  mkState (expenses st) (elements st) (expenseForm st) (dateInput st)
    (totalExpenditureEl st) (expenseListEl st) (emptyStateEl st)
    v (timers st) (clock st) (clock_reads st).

Definition set_timers (v : list Timer) (st : State) : State :=
  mkState (expenses st) (elements st) (expenseForm st) (dateInput st)
    (totalExpenditureEl st) (expenseListEl st) (emptyStateEl st)
    (messageBox st) v (clock st) (clock_reads st).

Definition set_clock_reads (v : nat) (st : State) : State :=
  mkState (expenses st) (elements st) (expenseForm st) (dateInput st)
    (totalExpenditureEl st) (expenseListEl st) (emptyStateEl st)
    (messageBox st) (timers st) (clock st) v.

(** ** Statements: state passing with exceptions

    A statement runs on a state and completes normally with a value or
    abruptly with an error; the mutations made before a throw stay. *)

Inductive Completion (A : Type) :=
| Normal (a : A)
| Throw (e : Error).
Arguments Normal {A} a.
Arguments Throw {A} e.

Definition Script (A : Type) : Type := State -> Completion A * State.

Definition ret {A} (a : A) : Script A := fun st => (Normal a, st).

Definition bind {A B} (c : Script A) (k : A -> Script B) : Script B :=
  fun st =>
    match c st with
    | (Normal a, st') => k a st'
    | (Throw e, st') => (Throw e, st')
    end.

Definition throw {A} (e : Error) : Script A := fun st => (Throw e, st).
Definition gets {A} (f : State -> A) : Script A := fun st => (Normal (f st), st).
Definition modify (f : State -> State) : Script unit := fun st => (Normal tt, f st).

Notation "x <- c ;; k" := (bind c (fun x => k))
  (at level 61, c at next level, right associativity).
Notation "c ;; k" := (bind c (fun _ => k))
  (at level 61, right associativity).

(** The state a statement leaves, however it completes. *)
Definition exec {A} (c : Script A) (st : State) : State := snd (c st).

(** Whether it completes normally. *)
Definition completes {A} (c : Script A) (st : State) : bool :=
  match fst (c st) with
  | Normal _ => true
  | Throw _ => false
  end.

(** ** The document *)

Definition is_page (e : Element) : bool := JS.contains (classList e) "page".
Definition is_nav_link (e : Element) : bool := JS.contains (classList e) "nav-link".

Definition pages (st : State) : list Element := filter is_page (elements st).
Definition navLinks (st : State) : list Element := filter is_nav_link (elements st).

Definition add_class (token : string) (e : Element) : Element :=
  mkElement (el_id e) (JS.classList_add (classList e) token) (dataset_page e).

Definition remove_class (token : string) (e : Element) : Element :=
  mkElement (el_id e) (JS.classList_remove (classList e) token) (dataset_page e).

Definition has_id (i : string) (e : Element) : bool :=
  (negb (String.eqb i "") && String.eqb (el_id e) i)%bool.

(** [document.getElementById]: the first element in tree order with this
    id, or [null]. *)
Definition getElementById (i : string) (els : list Element) : option Element :=
  find (has_id i) els.

(** A mutation of the element [getElementById] returns. *)
Fixpoint update_by_id (i : string) (f : Element -> Element)
    (els : list Element) : list Element :=
  match els with
  | [] => []
  | e :: r => if has_id i e then f e :: r else e :: update_by_id i f r
  end.

(** [ToString] of a string or [undefined]. *)
Definition ToString (v : option string) : string :=
  match v with
  | Some s => s
  | None => "undefined"
  end.

Definition option_string_eqb (a b : option string) : bool :=
  match a, b with
  | Some x, Some y => String.eqb x y
  | None, None => true
  | _, _ => false
  end.

(** [Date.now()] and [new Date()] read the clock. *)
Definition Date_now : Script Z :=
  fun st => (Normal (clock st (clock_reads st)),
             set_clock_reads (S (clock_reads st)) st).

(* ================================================================== *)
(** * The script's functions *)
(* ================================================================== *)

(** [showMessage(message)]: sets the text, shows the box and schedules the
    callback that hides it after 2000 ms. *)
Definition showMessage (message : string) : Script unit :=
  modify (fun st =>
    let mb := messageBox st in
    set_messageBox (mkMessageBox message (mb_classList mb) (backgroundColor mb)) st) ;;
  modify (fun st =>
    let mb := messageBox st in
    set_messageBox (mkMessageBox (textContent mb)
                      (JS.classList_add (mb_classList mb) "show")
                      (backgroundColor mb)) st) ;;
  modify (fun st => set_timers (timers st ++ [HideMessage 2000]) st).

(** The callback of that timer. *)
Definition hideMessage : Script unit :=
  modify (fun st =>
    let mb := messageBox st in
    set_messageBox (mkMessageBox (textContent mb)
                      (JS.classList_remove (mb_classList mb) "show")
                      (backgroundColor mb)) st).

(** [messageBox.style.backgroundColor = color]. *)
Definition set_backgroundColor (color : string) : Script unit :=
  modify (fun st =>
    let mb := messageBox st in
    set_messageBox (mkMessageBox (textContent mb) (mb_classList mb) color) st).

Definition set_date_value (v : string) (f : Form) : Form :=
  mkForm (form_description f) (form_amount f) (form_category f)
         (mkField v (defaultValue (form_date f))).

(** [setDefaultDate()]: [dateInput.valueAsDate = new Date()] when the date
    input exists; it is the form's [date] control. *)
Definition setDefaultDate : Script unit :=
  has_input <- gets dateInput ;;
  if has_input : bool then
    now <- Date_now ;;
    modify (fun st =>
      set_expenseForm (set_date_value (JS.date_value_of_time now) (expenseForm st)) st)
  else ret tt.

Definition set_link_active (active : bool) (e : Element) : Element :=
  if active
  then add_class "bg-indigo-50" (add_class "text-indigo-600" e)
  else remove_class "bg-indigo-50" (remove_class "text-indigo-600" e).

(** [showPage(pageId)].  [document.getElementById(pageId)] may be [null],
    and reading [classList] of [null] throws a TypeError. *)
Definition showPage (pageId : option string) : Script unit :=
  modify (fun st =>
    set_elements
      (map (fun page => if is_page page then remove_class "active" page else page)
           (elements st)) st) ;;
  target <- gets (fun st => getElementById (ToString pageId) (elements st)) ;;
  match target with
  | None => throw TypeError
  | Some _ =>
      modify (fun st =>
        set_elements
          (update_by_id (ToString pageId) (add_class "active") (elements st)) st)
  end ;;
  modify (fun st =>
    set_elements
      (map (fun link =>
              if is_nav_link link
              then set_link_active (option_string_eqb (dataset_page link) pageId) link
              else link)
           (elements st)) st).

(** The comparator of [updateUI]: [new Date(b.date) - new Date(a.date)], NaN
    when either date is invalid.  The difference is taken on the integer
    time values; the Number it rounds to has the same sign. *)
Definition by_date_desc (a b : Expense) : option Z :=
  match JS.Date_parse (date b), JS.Date_parse (date a) with
  | Some tb, Some ta => Some (tb - ta)
  | _, _ => None
  end.

Definition sortedExpenses (es : list Expense) : list Expense :=
  JS.sort by_date_desc es.

(** [expenses.reduce((sum, expense) => sum + expense.amount, 0)]. *)
Definition total (es : list Expense) : JS.number :=
  fold_left (fun sum expense => JS.add sum (amount expense)) es JS.pos_zero.

Definition expenseEl_className : string :=
  "flex flex-col sm:flex-row justify-between items-start sm:items-center p-4 border-b border-slate-200 last:border-b-0 hover:bg-slate-50 rounded-lg".

(** The row built for an expense. *)
Definition expenseEl (expense : Expense) : Node :=
  ExpenseEl expenseEl_className
    (description expense)
    (category expense)
    (JS.toLocaleDateString (JS.Date_parse (date expense)))
    ("$" ++ JS.toFixed (amount expense) 2).

Definition is_EmptyState (n : Node) : bool :=
  match n with
  | EmptyState => true
  | _ => false
  end.

(** [updateUI()]. *)
Definition updateUI : Script unit :=
  es <- gets expenses ;;
  modify (set_totalExpenditureEl ("$" ++ JS.toFixed (total es) 2)) ;;
  modify (set_expenseListEl []) ;;
  if (List.length es =? 0)%nat then
    found <- gets emptyStateEl ;;
    if found : bool then
      modify (fun st => set_expenseListEl (expenseListEl st ++ [EmptyState]) st)
    else
      modify (fun st =>
        set_expenseListEl
          (expenseListEl st ++
             [CreatedP "empty-state" "text-slate-500 text-center py-4"
                       "You have no expenses logged yet."]) st)
  else
    found <- gets emptyStateEl ;;
    children <- gets expenseListEl ;;
    (if (found && existsb is_EmptyState children)%bool then
       modify (fun st =>
         set_expenseListEl
           (filter (fun n => negb (is_EmptyState n)) (expenseListEl st)) st)
     else ret tt) ;;
    modify (fun st =>
      set_expenseListEl (expenseListEl st ++ map expenseEl (sortedExpenses es)) st).

(** [expenseForm.reset()]. *)
Definition reset_field (f : Field) : Field :=
  mkField (defaultValue f) (defaultValue f).

Definition reset (f : Form) : Form :=
  mkForm (reset_field (form_description f)) (reset_field (form_amount f))
         (reset_field (form_category f)) (reset_field (form_date f)).

(** [handleFormSubmit(e)].  [e.preventDefault()] has no effect on the state
    kept here. *)
Definition handleFormSubmit : Script unit :=
  description <- gets (fun st => value (form_description (expenseForm st))) ;;
  amount <- gets (fun st => JS.parseFloat (value (form_amount (expenseForm st)))) ;;
  category <- gets (fun st => value (form_category (expenseForm st))) ;;
  date <- gets (fun st => value (form_date (expenseForm st))) ;;
  if (negb (JS.string_truthy description) || negb (JS.number_truthy amount)
      || negb (JS.string_truthy date))%bool
  then
    showMessage "Please fill in all fields." ;;
    set_backgroundColor "#ef4444"
  else
    now <- Date_now ;;
    let newExpense := mkExpense now description amount category date in
    modify (fun st => set_expenses (expenses st ++ [newExpense]) st) ;;
    modify (fun st => set_expenseForm (reset (expenseForm st)) st) ;;
    setDefaultDate ;;
    updateUI ;;
    set_backgroundColor "#22c55e" ;;
    showMessage "Expense added successfully!" ;;
    showPage (Some "dashboard-page").

(** The click listener of a navigation link. *)
Definition navClick (link : Element) : Script unit :=
  showPage (dataset_page link).

(** The body of the [DOMContentLoaded] listener after the bindings:
    [expenses] starts empty, then the three initialisation calls. *)
Definition DOMContentLoaded : Script unit :=
  modify (set_expenses []) ;;
  setDefaultDate ;;
  showPage (Some "logger-page") ;;
  updateUI.

(** ** Sessions *)

(** What the user enters in the four controls. *)
Record Submission := mkSubmission {
  sub_description : string;
  sub_amount : string;
  sub_category : string;
  sub_date : string
}.

Definition enter (s : Submission) (f : Form) : Form :=
  mkForm (mkField (sub_description s) (defaultValue (form_description f)))
         (mkField (sub_amount s) (defaultValue (form_amount f)))
         (mkField (sub_category s) (defaultValue (form_category f)))
         (mkField (sub_date s) (defaultValue (form_date f))).

Inductive Event :=
| Submit (s : Submission)     (* the controls are filled and the form submitted *)
| Click (link : Element)      (* a navigation link is clicked *)
| Timeout                     (* the oldest pending timer fires *).

(** One event, run to completion.  An exception ends the handler; the page
    goes on with the state reached. *)
Definition handle (ev : Event) : Script unit :=
  match ev with
  | Submit s =>
      modify (fun st => set_expenseForm (enter s (expenseForm st)) st) ;;
      handleFormSubmit
  | Click link => navClick link
  | Timeout =>
      pending <- gets timers ;;
      match pending with
      | [] => ret tt
      | HideMessage _ :: rest => modify (set_timers rest) ;; hideMessage
      end
  end.

Definition step (st : State) (ev : Event) : State := exec (handle ev) st.

Definition run (evs : list Event) (st : State) : State := fold_left step evs st.

(** The validation of [handleFormSubmit] on what the user entered. *)
Definition valid (s : Submission) : bool :=
  (JS.string_truthy (sub_description s)
   && JS.number_truthy (JS.parseFloat (sub_amount s))
   && JS.string_truthy (sub_date s))%bool.

(* ================================================================== *)
(** * The properties *)
(* ================================================================== *)

(** The record a valid submission creates in state [st]. *)
Definition newExpense (st : State) (s : Submission) : Expense :=
  mkExpense (clock st (clock_reads st)) (sub_description s)
    (JS.parseFloat (sub_amount s)) (sub_category s) (sub_date s).

(** The state the page is in after load and the given events. *)
Definition session (st0 : State) (evs : list Event) : State :=
  run evs (exec DOMContentLoaded st0).

(** ** The total *)

(** The total as the specification words it: the exact sum of the stored
    amounts, to two decimal places (half up), after the currency symbol. *)
Definition exact_sum (es : list Expense) : Q :=
  fold_left (fun sum e => (sum + JS.to_Q (amount e))%Q) es 0%Q.

Definition two_decimals (x : Q) : string :=
  if Qle_bool 0 x then JS.fixed_digits 2 x
  else "-" ++ JS.fixed_digits 2 (Qopp x).

Definition exact_total_text (es : list Expense) : string :=
  "$" ++ two_decimals (exact_sum es).


(** ** The list *)

(** The empty-state placeholder: the element of the page, or the paragraph
    created in its place. *)
Definition is_placeholder (n : Node) : bool :=
  match n with
  | EmptyState => true
  | CreatedP i _ _ => String.eqb i "empty-state"
  | ExpenseEl _ _ _ _ _ => false
  end.

(** The placeholder is among the children of the list container. *)
Definition placeholder_displayed (st : State) : bool :=
  existsb is_placeholder (expenseListEl st).

(** The rows of the list container: its children other than the
    placeholder. *)
Definition rows (st : State) : list Node :=
  filter (fun n => negb (is_placeholder n)) (expenseListEl st).






(** ** The store *)

(** A Number above zero. *)
Definition is_positive (x : JS.number) : bool :=
  match x with
  | S754_finite false _ _ | S754_infinity false => true
  | _ => false
  end.

(** Neither NaN nor zero. *)
Definition truthy_amounts (es : list Expense) : Prop :=
  Forall (fun e => amount e <> JS.NaN /\ forall sg, amount e <> S754_zero sg) es.


(** ** The views *)

Definition is_active (e : Element) : bool := JS.contains (classList e) "active".

(** The views shown. *)
Definition active_pages (st : State) : list Element :=
  filter is_active (pages st).

(** The number of views shown. *)
Definition shown_count (els : list Element) : nat :=
  List.length (filter is_active (filter is_page els)).

(** A navigation link carries the two tokens that mark it active. *)
Definition link_marked (e : Element) : bool :=
  (JS.contains (classList e) "text-indigo-600"
   && JS.contains (classList e) "bg-indigo-50")%bool.

(** What the first and the last pass of [showPage] do to one element. *)
Definition deactivate (page : Element) : Element :=
  if is_page page then remove_class "active" page else page.

Definition restyle (pageId : option string) (link : Element) : Element :=
  if is_nav_link link
  then set_link_active (option_string_eqb (dataset_page link) pageId) link
  else link.

(** The ids and the tokens [page] and [nav-link] of every element are the
    same in both documents: the node lists [pages] and [navLinks] have the
    same members. *)
Definition same_node_lists (els els' : list Element) : Prop :=
  map el_id els' = map el_id els
  /\ map is_page els' = map is_page els
  /\ map is_nav_link els' = map is_nav_link els.

(* ================================================================== *)
(** * An example page *)
(* ================================================================== *)

(** A document with the two pages and their links. *)
Definition example_elements : list Element :=
  [ mkElement "" ["nav-link"] (Some "logger-page");
    mkElement "" ["nav-link"] (Some "dashboard-page");
    mkElement "logger-page" ["page"; "active"] None;
    mkElement "dashboard-page" ["page"] None ].

Definition example_form : Form :=
  mkForm (mkField "" "") (mkField "" "") (mkField "food" "food") (mkField "" "").

(** The page before load, on a clock that advances by a millisecond with
    every reading. *)
Definition example_state : State :=
  mkState [] example_elements example_form true "$0.00" [EmptyState] true
    (mkMessageBox "" [] "") [] (fun n => 1704844800000 + Z.of_nat n) 0.


(** After load: the logger view is shown and its link is marked. *)
Definition loaded_state : State := exec DOMContentLoaded example_state.

(** With two records in the store. *)
Definition two_records : State :=
  set_expenses
    [ mkExpense 1704844800001 "Walk" (JS.parseFloat "1") "fun" "2024-01-05";
      mkExpense 1704844800003 "Swim" (JS.parseFloat "1") "fun" "2024-01-20" ]
    example_state.

Definition coffee : Submission := mkSubmission "Coffee" "4.50" "food" "2024-01-10".
Definition tea : Submission := mkSubmission "Tea" "4.5abc" "drinks" "2024-01-20".
Definition zero_amount : Submission := mkSubmission "Water" "0" "food" "2024-01-10".
Definition refund : Submission := mkSubmission "Refund" "-5" "food" "2024-01-10".
Definition gum : Submission := mkSubmission "Gum" "0.3" "food" "2024-01-03".
Definition mint : Submission := mkSubmission "Mint" "0.075" "food" "2024-01-04".

(* ================================================================== *)
(** * Further definitions for sessions *)
(* ================================================================== *)

(** What the user submitted during a session, in order. *)
Definition submissions (evs : list Event) : list Submission :=
  flat_map (fun ev => match ev with Submit s => [s] | _ => [] end) evs.

(** A record without its id, and what a submission puts in these fields. *)
Definition record_of (e : Expense) : string * JS.number * string * string :=
  (description e, amount e, category e, date e).

Definition entry_of (s : Submission) : string * JS.number * string * string :=
  (sub_description s, JS.parseFloat (sub_amount s), sub_category s, sub_date s).

(** The statements of [handleFormSubmit] on a submission that passes the
    validation, from reading the controls up to, and not including, the
    final call of [showPage]. *)
Definition accepted (s : Submission) : Script unit :=
  modify (fun st => set_expenseForm (enter s (expenseForm st)) st) ;;
  now <- Date_now ;;
  modify (fun st =>
    set_expenses
      (expenses st ++ [mkExpense now (sub_description s)
                         (JS.parseFloat (sub_amount s))
                         (sub_category s) (sub_date s)]) st) ;;
  modify (fun st => set_expenseForm (reset (expenseForm st)) st) ;;
  setDefaultDate ;;
  updateUI ;;
  set_backgroundColor "#22c55e" ;;
  showMessage "Expense added successfully!".

(** The form after a reset and [setDefaultDate] at the clock reading [now]. *)
Definition fresh_form (has_date_input : bool) (now : Z) (f : Form) : Form :=
  if has_date_input
  then set_date_value (JS.date_value_of_time now) (reset f)
  else reset f.

(** The child [updateUI] shows for an empty store. *)
Definition placeholder_node (found : bool) : Node :=
  if found then EmptyState
  else CreatedP "empty-state" "text-slate-500 text-center py-4"
                "You have no expenses logged yet.".

(** A navigation link without a [data-page] attribute. *)
Definition bare_link : Element := mkElement "" ["nav-link"] None.

(** The page at load when [showPage('logger-page')] is called: [expenses]
    is empty and [setDefaultDate] has run. *)
Definition before_first_show (st0 : State) : State :=
  exec setDefaultDate (exec (modify (set_expenses [])) st0).

(** The text of the message a submission brings up. *)
Definition message_for (s : Submission) : string :=
  if valid s then "Expense added successfully!" else "Please fill in all fields.".


(** The example page without its logger view. *)
Definition no_logger_state : State :=
  set_elements
    [ mkElement "" ["nav-link"] (Some "dashboard-page");
      mkElement "dashboard-page" ["page"] None ]
    example_state.

(** [pageId] is the id of a view of the document. *)
Definition names_view (els : list Element) (pageId : option string) : Prop :=
  exists e, getElementById (ToString pageId) els = Some e /\ is_page e = true.

(** Every link clicked during the events leads to a view. *)
Definition clicks_name_views (els : list Element) (evs : list Event) : Prop :=
  Forall (fun ev => match ev with
                    | Click link => names_view els (dataset_page link)
                    | _ => True
                    end) evs.

(* ================================================================== *)
(** * Proofs: running the script symbolically *)
(* ================================================================== *)

Arguments JS.parseFloat : simpl never.
Arguments JS.toFixed : simpl never.
Arguments JS.Date_parse : simpl never.
Arguments JS.date_value_of_time : simpl never.
Arguments JS.toLocaleDateString : simpl never.
Arguments JS.add : simpl never.
Arguments JS.sort : simpl never.
Arguments JS.classList_add : simpl never.
Arguments JS.classList_remove : simpl never.
Arguments getElementById : simpl never.
Arguments update_by_id : simpl never.
Arguments total : simpl never.
Arguments sortedExpenses : simpl never.

(** Unfolds the statements down to the state they build. *)
Ltac unfold_script :=
  cbv [step handle navClick handleFormSubmit DOMContentLoaded updateUI showPage
       setDefaultDate showMessage hideMessage set_backgroundColor Date_now
       exec completes bind ret throw gets modify].

Ltac split_script :=
  repeat (cbn;
    match goal with
    | |- context [match getElementById ?i ?els with _ => _ end] =>
        destruct (getElementById i els) eqn:?
    | |- context [if dateInput ?s then _ else _] => destruct (dateInput s) eqn:?
    | |- context [if emptyStateEl ?s then _ else _] => destruct (emptyStateEl s) eqn:?
    | |- context [if (emptyStateEl ?s && _)%bool then _ else _] =>
        destruct (emptyStateEl s) eqn:?
    | |- context [if (?n =? 0)%nat then _ else _] => destruct (n =? 0)%nat eqn:?
    | |- context [match timers ?s with _ => _ end] => destruct (timers s) as [|[?] ?] eqn:?
    end); cbn.

Ltac run_script := unfold_script; cbn; split_script.

Section Frames.
Variable st : State.

Lemma showPage_expenses pageId :
  expenses (exec (showPage pageId) st) = expenses st.
Proof. run_script; reflexivity. Qed.

Lemma showPage_clock pageId :
  clock (exec (showPage pageId) st) = clock st
  /\ clock_reads (exec (showPage pageId) st) = clock_reads st.
Proof. run_script; split; reflexivity. Qed.

Lemma showPage_widgets pageId :
  let st' := exec (showPage pageId) st in
  totalExpenditureEl st' = totalExpenditureEl st
  /\ expenseListEl st' = expenseListEl st
  /\ expenseForm st' = expenseForm st
  /\ messageBox st' = messageBox st.
Proof. run_script; repeat split; reflexivity. Qed.

Lemma updateUI_completes : completes updateUI st = true.
Proof. run_script; reflexivity. Qed.

Lemma updateUI_expenses : expenses (exec updateUI st) = expenses st.
Proof. run_script; reflexivity. Qed.

Lemma updateUI_total :
  totalExpenditureEl (exec updateUI st)
  = "$" ++ JS.toFixed (total (expenses st)) 2.
Proof. run_script; reflexivity. Qed.
End Frames.

(** The test of [handleFormSubmit] is the negation of [valid]. *)
Lemma rejects_iff_not_valid (s : Submission) :
  (negb (JS.string_truthy (sub_description s))
   || negb (JS.number_truthy (JS.parseFloat (sub_amount s)))
   || negb (JS.string_truthy (sub_date s)))%bool = negb (valid s).
Proof.
  unfold valid.
  destruct (JS.string_truthy (sub_description s)),
           (JS.number_truthy (JS.parseFloat (sub_amount s))),
           (JS.string_truthy (sub_date s)); reflexivity.
Qed.

Lemma string_truthy_iff (s : string) : JS.string_truthy s = true <-> s <> "".
Proof. destruct s; cbn; split; congruence. Qed.

Lemma number_truthy_iff (x : JS.number) :
  JS.number_truthy x = true <-> x <> JS.NaN /\ (forall sg, x <> S754_zero sg).
Proof.
  unfold JS.NaN.
  destruct x; cbn;
    (split;
     [ intros H; try discriminate; split; congruence
     | intros [H1 H2]; try reflexivity; exfalso;
       first [ apply H1; reflexivity | eapply H2; reflexivity ] ]).
Qed.

Section Submit.
Variables (st : State) (s : Submission).

Lemma submit_valid_expenses :
  valid s = true ->
  expenses (step st (Submit s)) = (expenses st ++ [newExpense st s])%list.
Proof.
  intros Hv. unfold_script. cbn.
  rewrite rejects_iff_not_valid, Hv. cbn.
  split_script; reflexivity.
Qed.

Lemma submit_invalid_state :
  valid s = false ->
  let st' := step st (Submit s) in
  completes (handle (Submit s)) st = true
  /\ expenses st' = expenses st
  /\ expenseForm st' = enter s (expenseForm st)
  /\ messageBox st'
     = mkMessageBox "Please fill in all fields."
         (JS.classList_add (mb_classList (messageBox st)) "show") "#ef4444"
  /\ timers st' = (timers st ++ [HideMessage 2000])%list
  /\ elements st' = elements st
  /\ totalExpenditureEl st' = totalExpenditureEl st
  /\ expenseListEl st' = expenseListEl st
  /\ clock_reads st' = clock_reads st.
Proof.
  intros Hv. unfold_script. cbn.
  rewrite rejects_iff_not_valid, Hv. cbn.
  repeat split; reflexivity.
Qed.
End Submit.

Lemma contains_classList_add (cl : list string) (token : string) :
  JS.contains (JS.classList_add cl token) token = true.
Proof.
  unfold JS.classList_add.
  destruct (JS.contains cl token) eqn:E; [exact E|].
  unfold JS.contains. rewrite existsb_app. cbn.
  rewrite String.eqb_refl. rewrite orb_true_r. reflexivity.
Qed.

(** C1.  A submission with a non-empty description, an amount string that
    parses to a number other than NaN and zero, and a non-empty date appends
    exactly one record to [expenses]; its description, category and date are
    the submitted values and its amount is [parseFloat] of the submitted
    amount string. *)
Theorem handleFormSubmit_success_appends (st : State) (s : Submission) :
  sub_description s <> "" ->
  JS.parseFloat (sub_amount s) <> JS.NaN ->
  (forall sg, JS.parseFloat (sub_amount s) <> S754_zero sg) ->
  sub_date s <> "" ->
  let st' := step st (Submit s) in
  exists r,
    expenses st' = (expenses st ++ [r])%list
    /\ List.length (expenses st') = S (List.length (expenses st))
    /\ description r = sub_description s
    /\ category r = sub_category s
    /\ date r = sub_date s
    /\ amount r = JS.parseFloat (sub_amount s).
Proof.
  intros Hd Hn Hz Hdt st'.
  assert (Hv : valid s = true).
  { unfold valid.
    rewrite (proj2 (string_truthy_iff _) Hd), (proj2 (string_truthy_iff _) Hdt).
    rewrite (proj2 (number_truthy_iff _) (conj Hn Hz)). reflexivity. }
  exists (newExpense st s). subst st'.
  rewrite (submit_valid_expenses st s Hv).
  rewrite length_app. cbn. repeat split; try reflexivity. lia.
Qed.

Lemma handleFormSubmit_success_appends_witness :
  exists r,
    expenses (step example_state (Submit coffee)) = (expenses example_state ++ [r])%list
    /\ List.length (expenses (step example_state (Submit coffee)))
       = S (List.length (expenses example_state))
    /\ description r = "Coffee"
    /\ category r = "food"
    /\ date r = "2024-01-10"
    /\ amount r = JS.parseFloat "4.50".
Proof.
  apply (handleFormSubmit_success_appends example_state coffee).
  - discriminate.
  - vm_compute. discriminate.
  - intros sg. vm_compute. discriminate.
  - discriminate.
Defined.

(** C2.  A submission with an empty description, or an amount string that
    parses to NaN or to zero, or an empty date, is rejected: the handler
    returns after showing the message "Please fill in all fields." on a red
    box, [expenses] is unchanged, and the form keeps what was entered. *)
Theorem handleFormSubmit_rejects (st : State) (s : Submission) :
  sub_description s = ""
  \/ JS.parseFloat (sub_amount s) = JS.NaN
  \/ (exists sg, JS.parseFloat (sub_amount s) = S754_zero sg)
  \/ sub_date s = "" ->
  let st' := step st (Submit s) in
  completes (handle (Submit s)) st = true
  /\ expenses st' = expenses st
  /\ List.length (expenses st') = List.length (expenses st)
  /\ textContent (messageBox st') = "Please fill in all fields."
  /\ backgroundColor (messageBox st') = "#ef4444"
  /\ JS.contains (mb_classList (messageBox st')) "show" = true
  /\ expenseForm st' = enter s (expenseForm st).
Proof.
  intros H st'.
  assert (Hv : valid s = false).
  { unfold valid.
    destruct H as [H | [H | [[sg H] | H]]]; rewrite H; cbn;
      destruct (JS.string_truthy (sub_description s));
      try destruct (JS.number_truthy (JS.parseFloat (sub_amount s)));
      try destruct (JS.string_truthy (sub_date s)); reflexivity. }
  destruct (submit_invalid_state st s Hv) as (Hc & He & Hf & Hm & _).
  subst st'. rewrite He, Hf, Hm.
  repeat split; try assumption; try reflexivity.
  apply contains_classList_add.
Qed.

Lemma handleFormSubmit_rejects_witness :
  let st' := step example_state (Submit zero_amount) in
  completes (handle (Submit zero_amount)) example_state = true
  /\ expenses st' = expenses example_state
  /\ List.length (expenses st') = List.length (expenses example_state)
  /\ textContent (messageBox st') = "Please fill in all fields."
  /\ backgroundColor (messageBox st') = "#ef4444"
  /\ JS.contains (mb_classList (messageBox st')) "show" = true
  /\ expenseForm st' = enter zero_amount (expenseForm example_state).
Proof.
  apply (handleFormSubmit_rejects example_state zero_amount).
  right; right; left. exists false. vm_compute. reflexivity.
Defined.

(* ================================================================== *)
(** * [parseFloat] ignores what follows the literal *)
(* ================================================================== *)

Section ParseFloatSuffix.
Variable t : string.
Hypothesis Ht : JS.no_digit t = true.

Lemma take_digits_no_digit : JS.take_digits t = "".
Proof.
  destruct t as [|c r]; [reflexivity|]. cbn in *.
  destruct (JS.is_digit c); [discriminate | reflexivity].
Qed.

Lemma drop_digits_no_digit : JS.drop_digits t = t.
Proof.
  destruct t as [|c r]; [reflexivity|]. cbn in *.
  destruct (JS.is_digit c); [discriminate | reflexivity].
Qed.

Lemma take_digits_app (s : string) :
  JS.take_digits (s ++ t) = JS.take_digits s.
Proof.
  induction s as [|c r IH]; cbn.
  - apply take_digits_no_digit.
  - destruct (JS.is_digit c); [rewrite IH|]; reflexivity.
Qed.

Lemma drop_digits_app (s : string) :
  JS.drop_digits (s ++ t) = JS.drop_digits s ++ t.
Proof.
  induction s as [|c r IH]; cbn.
  - apply drop_digits_no_digit.
  - destruct (JS.is_digit c); [rewrite IH|]; reflexivity.
Qed.
End ParseFloatSuffix.

Lemma no_digit_tail (c : ascii) (r : string) :
  JS.no_digit (String c r) = true -> JS.no_digit r = true.
Proof. cbn. intros H. apply andb_prop in H. apply H. Qed.

Lemma no_digit_scan_sign (t : string) :
  JS.no_digit t = true -> JS.no_digit (snd (JS.scan_sign t)) = true.
Proof.
  intros Ht. unfold JS.scan_sign.
  destruct t as [|c r]; [exact Ht|].
  pose proof (no_digit_tail c r Ht) as Hr.
  destruct c as [[] [] [] [] [] [] [] []]; cbn [snd]; assumption.
Qed.

Lemma scan_sign_app (s t : string) :
  s <> "" ->
  JS.scan_sign (s ++ t) = (fst (JS.scan_sign s), snd (JS.scan_sign s) ++ t).
Proof.
  intros Hs. destruct s as [|c r]; [congruence|].
  destruct c as [[] [] [] [] [] [] [] []]; reflexivity.
Qed.

Lemma scan_exponent_no_digit (t : string) :
  JS.no_digit t = true -> JS.scan_exponent t = 0.
Proof.
  intros Ht. unfold JS.scan_exponent.
  destruct t as [|c r]; [reflexivity|].
  destruct (Ascii.eqb c "e" || Ascii.eqb c "E")%bool; [|reflexivity].
  pose proof (no_digit_scan_sign r (no_digit_tail c r Ht)) as Hr.
  destruct (JS.scan_sign r) as [neg r']. cbn [snd] in Hr.
  rewrite (take_digits_no_digit r' Hr). reflexivity.
Qed.

Lemma scan_exponent_app (s t : string) :
  JS.no_digit t = true ->
  JS.scan_exponent (s ++ t) = JS.scan_exponent s.
Proof.
  intros Ht. destruct s as [|c r].
  - cbn [append]. rewrite (scan_exponent_no_digit t Ht). reflexivity.
  - cbn [append]. unfold JS.scan_exponent.
    destruct (Ascii.eqb c "e" || Ascii.eqb c "E")%bool; [|reflexivity].
    destruct r as [|d r'].
    + cbn [append].
      pose proof (no_digit_scan_sign t Ht) as Hr.
      destruct (JS.scan_sign t) as [neg u]. cbn [snd] in Hr.
      rewrite (take_digits_no_digit u Hr). reflexivity.
    + rewrite (scan_sign_app (String d r') t) by discriminate.
      destruct (JS.scan_sign (String d r')) as [neg u]. cbn [fst snd].
      rewrite (take_digits_app t Ht u). reflexivity.
Qed.

Lemma scan_fraction_app (s t : string) :
  JS.no_digit t = true ->
  JS.scan_fraction (s ++ t) = JS.scan_fraction s.
Proof.
  intros Ht. destruct s as [|c r].
  - cbn [append]. unfold JS.scan_fraction.
    destruct t as [|c r]; [reflexivity|].
    pose proof (take_digits_no_digit r (no_digit_tail c r Ht)) as Hr.
    destruct c as [[] [] [] [] [] [] [] []]; try reflexivity. exact Hr.
  - cbn [append]. unfold JS.scan_fraction.
    destruct c as [[] [] [] [] [] [] [] []]; try reflexivity.
    apply (take_digits_app t Ht).
Qed.

Lemma exponent_after_fraction_app (s t : string) :
  JS.no_digit t = true ->
  JS.scan_exponent (JS.after_fraction (s ++ t))
  = JS.scan_exponent (JS.after_fraction s).
Proof.
  intros Ht. destruct s as [|c r].
  - cbn [append]. unfold JS.after_fraction at 2. 
    apply scan_exponent_no_digit.
    unfold JS.after_fraction. destruct t as [|c r]; [reflexivity|].
    pose proof (no_digit_tail c r Ht) as Hr.
    destruct c as [[] [] [] [] [] [] [] []]; try exact Ht.
    rewrite (drop_digits_no_digit r Hr). exact Hr.
  - cbn [append]. unfold JS.after_fraction.
    destruct c as [[] [] [] [] [] [] [] []];
      try apply (scan_exponent_app (String _ r) t Ht).
    rewrite (drop_digits_app t Ht). apply (scan_exponent_app _ t Ht).
Qed.

Lemma scan_unsigned_app (s t : string) :
  JS.no_digit t = true ->
  JS.scan_unsigned (s ++ t) = JS.scan_unsigned s.
Proof.
  intros Ht. unfold JS.scan_unsigned.
  rewrite (take_digits_app t Ht), (drop_digits_app t Ht).
  rewrite (scan_fraction_app _ t Ht), (exponent_after_fraction_app _ t Ht).
  reflexivity.
Qed.

Lemma prefix_app (p s t : string) :
  String.prefix p s = true -> String.prefix p (s ++ t) = true.
Proof.
  revert s. induction p as [|a p IH]; intros s H.
  - destruct (s ++ t); reflexivity.
  - destruct s as [|b s]; [discriminate|]. cbn in *.
    destruct (ascii_dec a b); [apply IH; exact H | discriminate].
Qed.

Lemma Infinity_cut_is_NaN (u t : string) :
  String.prefix "Infinity" (u ++ t) = true ->
  String.prefix "Infinity" u = false ->
  JS.scan_unsigned u = None.
Proof.
  intros H1 H2. destruct u as [|c r]; [reflexivity|].
  cbn [append] in H1. unfold String.prefix in H1.
  destruct (ascii_dec "I" c) as [E|]; [|discriminate].
  subst c. reflexivity.
Qed.

Lemma skip_white_app (p t : string) :
  JS.skip_white p <> "" -> JS.skip_white (p ++ t) = JS.skip_white p ++ t.
Proof.
  induction p as [|c r IH]; cbn; intros H.
  - congruence.
  - destruct (JS.is_white c); [apply IH; exact H | reflexivity].
Qed.

(** Characters with no digit among them, appended to a string that
    [parseFloat] reads as a number, do not change what it reads. *)
Lemma parseFloat_app (p t : string) :
  JS.no_digit t = true ->
  JS.parseFloat p <> JS.NaN ->
  JS.parseFloat (p ++ t) = JS.parseFloat p.
Proof.
  intros Ht Hp. unfold JS.parseFloat in *.
  destruct (JS.skip_white p) as [|c r] eqn:Hw.
  { exfalso. apply Hp. reflexivity. }
  rewrite skip_white_app by (rewrite Hw; discriminate). rewrite Hw.
  rewrite scan_sign_app by discriminate.
  destruct (JS.scan_sign (String c r)) as [neg u]. cbn [fst snd].
  destruct (String.prefix "Infinity" u) eqn:Hinf.
  - rewrite (prefix_app _ _ t Hinf). reflexivity.
  - destruct (String.prefix "Infinity" (u ++ t)) eqn:Hinf'.
    + exfalso. apply Hp. rewrite (Infinity_cut_is_NaN u t Hinf' Hinf). reflexivity.
    + rewrite (scan_unsigned_app u t Ht). reflexivity.
Qed.

(** C10.  When the amount string is a string that [parseFloat] reads as a
    number other than NaN and zero, followed by characters none of which is a
    digit (as in "4.5abc"), and description and date are not empty, the
    validation succeeds and the stored amount is the number read from the
    leading part. *)
Theorem handleFormSubmit_trailing_characters
    (st : State) (d p t c dt : string) :
  d <> "" ->
  dt <> "" ->
  JS.no_digit t = true ->
  JS.parseFloat p <> JS.NaN ->
  (forall sg, JS.parseFloat p <> S754_zero sg) ->
  let s := mkSubmission d (p ++ t) c dt in
  let st' := step st (Submit s) in
  valid s = true
  /\ exists r,
       expenses st' = (expenses st ++ [r])%list
       /\ amount r = JS.parseFloat p
       /\ description r = d /\ category r = c /\ date r = dt.
Proof.
  intros Hd Hdt Ht Hn Hz s st'.
  assert (Hv : valid s = true).
  { unfold valid, s. cbn [sub_description sub_amount sub_date].
    rewrite (parseFloat_app p t Ht Hn).
    rewrite (proj2 (string_truthy_iff _) Hd), (proj2 (string_truthy_iff _) Hdt).
    rewrite (proj2 (number_truthy_iff _) (conj Hn Hz)). reflexivity. }
  split; [exact Hv|].
  exists (newExpense st s). subst st'.
  rewrite (submit_valid_expenses st s Hv).
  unfold newExpense, s. cbn [amount description category date
                             sub_description sub_amount sub_category sub_date].
  rewrite (parseFloat_app p t Ht Hn). repeat split; reflexivity.
Qed.

Lemma handleFormSubmit_trailing_characters_witness :
  valid tea = true
  /\ exists r,
       expenses (step example_state (Submit tea)) = (expenses example_state ++ [r])%list
       /\ amount r = S754_finite false 5066549580791808 (-50)
       /\ description r = "Tea" /\ category r = "drinks" /\ date r = "2024-01-20".
Proof.
  apply (handleFormSubmit_trailing_characters example_state "Tea" "4.5" "abc"
           "drinks" "2024-01-20").
  - discriminate.
  - discriminate.
  - reflexivity.
  - vm_compute. discriminate.
  - intros sg. vm_compute. discriminate.
Defined.

(* ================================================================== *)
(** * The renderer *)
(* ================================================================== *)

Lemma rows_are_not_placeholders (es : list Expense) :
  existsb is_placeholder (map expenseEl es) = false.
Proof. induction es as [|e r IH]; [reflexivity | exact IH]. Qed.

(** C7.  [updateUI] always completes, and after it the placeholder is a
    child of the list container exactly when [expenses] is empty. *)
Theorem updateUI_placeholder_iff_empty (st : State) :
  let st' := exec updateUI st in
  completes updateUI st = true
  /\ (placeholder_displayed st' = true <-> expenses st' = []).
Proof.
  intros st'. split; [apply updateUI_completes|].
  subst st'. rewrite updateUI_expenses. unfold placeholder_displayed.
  run_script.
  - destruct (expenses st); [|discriminate]. cbn. split; reflexivity.
  - destruct (expenses st); [|discriminate]. cbn. split; reflexivity.
  - destruct (expenses st) as [|e r] eqn:E; [discriminate|].
    rewrite rows_are_not_placeholders. split; discriminate.
  - destruct (expenses st) as [|e r] eqn:E; [discriminate|].
    rewrite rows_are_not_placeholders. split; discriminate.
Qed.

(** ** The total *)

Lemma submit_valid_total (st : State) (s : Submission) :
  valid s = true ->
  totalExpenditureEl (step st (Submit s))
  = "$" ++ JS.toFixed (total (expenses (step st (Submit s)))) 2.
Proof.
  intros Hv. unfold_script. cbn.
  rewrite rejects_iff_not_valid, Hv. cbn.
  split_script; reflexivity.
Qed.



(** *** The shape of what [toFixed] prints *)
















(** The same at the scale of cents: 0.3 and 0.075 are stored as Numbers a
    little below these decimals; their exact sum is below 0.375 and prints as
    0.37, their binary64 sum is 0.375 and prints as 0.38. *)
Example total_of_gum_and_mint :
  let st := run (map Submit [gum; mint]) example_state in
  totalExpenditureEl st = "$0.38"
  /\ exact_total_text (expenses st) = "$0.37".
Proof. vm_compute. split; reflexivity. Qed.

(** Sums that leave the fixed range are not printed with two decimals. *)
Example total_out_of_fixed_range :
  totalExpenditureEl
    (run (map Submit [mkSubmission "a" "1e308" "x" "2024-01-01";
                      mkSubmission "b" "1e308" "x" "2024-01-01"]) example_state)
  = "$Infinity"
  /\ totalExpenditureEl
       (run (map Submit [mkSubmission "a" "Infinity" "x" "2024-01-01";
                         mkSubmission "b" "-Infinity" "x" "2024-01-01"]) example_state)
     = "$NaN"
  /\ totalExpenditureEl
       (run (map Submit [mkSubmission "a" "1e21" "x" "2024-01-01"]) example_state)
     = "$1e+21".
Proof. vm_compute. repeat split; reflexivity. Qed.

(* ================================================================== *)
(** * The sort *)
(* ================================================================== *)

Section SortByKey.
Context {A : Type}.
Variable comparefn : A -> A -> option Z.
Variable key : A -> Z.
Variable ok : A -> Prop.

(** On the elements that are [ok] the comparator orders by [key],
    larger keys first. *)
Hypothesis comparefn_key :
  forall a b, ok a -> ok b ->
  JS.comes_after comparefn a b = (key a <? key b).



Lemma insert_perm (x : A) (l : list A) :
  Permutation (JS.insert comparefn x l) (x :: l).
Proof.
  induction l as [|y l IH]; cbn.
  - apply Permutation_refl.
  - destruct (JS.comes_after comparefn x y).
    + eapply perm_trans; [apply perm_skip, IH | apply perm_swap].
    + apply Permutation_refl.
Qed.

Lemma sort_perm (l : list A) : Permutation (JS.sort comparefn l) l.
Proof.
  induction l as [|x l IH]; cbn.
  - apply perm_nil.
  - eapply perm_trans; [apply insert_perm | apply perm_skip, IH].
Qed.






End SortByKey.

(** ** The list *)




Lemma updateUI_rows (st : State) :
  expenses st <> [] ->
  expenseListEl (exec updateUI st) = map expenseEl (sortedExpenses (expenses st)).
Proof.
  intros Hne. run_script;
    try (destruct (expenses st); [congruence | discriminate]); reflexivity.
Qed.


Lemma filter_rows (es : list Expense) :
  filter (fun n => negb (is_placeholder n)) (map expenseEl es) = map expenseEl es.
Proof. induction es as [|e r IH]; cbn; [reflexivity | rewrite IH; reflexivity]. Qed.

Lemma updateUI_all_rows (st : State) :
  rows (exec updateUI st) = map expenseEl (sortedExpenses (expenses st)).
Proof.
  destruct (expenses st) as [|e r] eqn:E.
  - unfold rows. run_script; rewrite E in *; try discriminate; reflexivity.
  - unfold rows. rewrite updateUI_rows by (rewrite E; discriminate).
    rewrite E. apply filter_rows.
Qed.




(* ================================================================== *)
(** * Sessions *)
(* ================================================================== *)

Lemma submit_valid_clock (st : State) (s : Submission) :
  valid s = true ->
  clock (step st (Submit s)) = clock st
  /\ (clock_reads st < clock_reads (step st (Submit s)))%nat.
Proof.
  intros Hv. unfold_script. cbn.
  rewrite rejects_iff_not_valid, Hv. cbn.
  split_script; split; try reflexivity; lia.
Qed.

(** What one event does to the array and to the clock: nothing is removed or
    changed, and the only addition is the record of a valid submission, with
    the reading of the clock at that moment as its id. *)
Lemma step_effect (st : State) (ev : Event) :
  clock (step st ev) = clock st
  /\ ((expenses (step st ev) = expenses st
       /\ (clock_reads st <= clock_reads (step st ev))%nat)
      \/ (exists s, ev = Submit s /\ valid s = true
            /\ expenses (step st ev) = (expenses st ++ [newExpense st s])%list
            /\ (clock_reads st < clock_reads (step st ev))%nat)).
Proof.
  destruct ev as [s | link | ].
  - destruct (valid s) eqn:Hv.
    + destruct (submit_valid_clock st s Hv) as [Hc Hr].
      split; [exact Hc|]. right. exists s.
      repeat split; try assumption. apply submit_valid_expenses, Hv.
    + destruct (submit_invalid_state st s Hv)
        as (_ & He & _ & _ & _ & _ & _ & _ & Hr).
      split.
      * unfold_script. cbn. rewrite rejects_iff_not_valid, Hv. reflexivity.
      * left. split; [exact He | rewrite Hr; lia].
  - unfold step, handle, navClick.
    destruct (showPage_clock st (dataset_page link)) as [Hc Hr].
    split; [exact Hc|]. left. split; [apply showPage_expenses | rewrite Hr; lia].
  - run_script; (split; [reflexivity | left; split; [reflexivity | lia]]).
Qed.

Lemma load_effect (st0 : State) :
  expenses (exec DOMContentLoaded st0) = []
  /\ clock (exec DOMContentLoaded st0) = clock st0.
Proof. run_script; split; reflexivity. Qed.

Lemma run_cons (ev : Event) (evs : list Event) (st : State) :
  run (ev :: evs) st = run evs (step st ev).
Proof. reflexivity. Qed.

(** ** Amounts *)

Lemma run_truthy_amounts (evs : list Event) :
  forall st, truthy_amounts (expenses st) -> truthy_amounts (expenses (run evs st)).
Proof.
  induction evs as [|ev evs IH]; intros st H; [exact H|].
  rewrite run_cons. apply IH.
  destruct (step_effect st ev) as [_ [[He _] | (s & _ & Hv & He & _)]];
    rewrite He; [exact H|].
  apply Forall_app. split; [exact H|]. constructor; [|constructor].
  cbn [amount newExpense]. apply number_truthy_iff.
  unfold valid in Hv. apply andb_prop in Hv. destruct Hv as [Hv _].
  apply andb_prop in Hv. apply Hv.
Qed.

(** C9, as the code has it.  Every record in the store has an amount that
    is neither NaN nor zero; the sign is not checked. *)
Theorem stored_amounts_are_nonzero_numbers (st0 : State) (evs : list Event) :
  Forall (fun e => amount e <> JS.NaN /\ forall sg, amount e <> S754_zero sg)
         (expenses (session st0 evs)).
Proof.
  unfold session. apply run_truthy_amounts.
  destruct (load_effect st0) as [-> _]. constructor.
Qed.

(** C9 as stated fails: the amount string "-5" passes the validation and
    the record is stored with the amount -5. *)
Lemma stored_amount_can_be_negative :
  valid refund = true
  /\ map amount (expenses (session example_state [Submit refund]))
     = [S754_finite true 5629499534213120 (-50)]
  /\ forallb is_positive
       (map amount (expenses (session example_state [Submit refund]))) = false.
Proof. vm_compute. repeat split; reflexivity. Qed.

(** ** Identifiers *)







(* ================================================================== *)
(** * The view switcher *)
(* ================================================================== *)

Lemma contains_app (cl1 cl2 : list string) (t : string) :
  JS.contains (cl1 ++ cl2) t = (JS.contains cl1 t || JS.contains cl2 t)%bool.
Proof. unfold JS.contains. apply existsb_app. Qed.

Lemma contains_add (cl : list string) (t t' : string) :
  JS.contains (JS.classList_add cl t) t'
  = (JS.contains cl t' || String.eqb t' t)%bool.
Proof.
  unfold JS.classList_add. destruct (JS.contains cl t) eqn:E.
  - destruct (String.eqb_spec t' t) as [->|_].
    + rewrite E. reflexivity.
    + rewrite orb_false_r. reflexivity.
  - rewrite contains_app. unfold JS.contains at 2. cbn.
    rewrite orb_false_r. reflexivity.
Qed.

Lemma contains_remove (cl : list string) (t t' : string) :
  JS.contains (JS.classList_remove cl t) t'
  = (negb (String.eqb t' t) && JS.contains cl t')%bool.
Proof.
  unfold JS.classList_remove, JS.contains.
  induction cl as [|x cl IH]; cbn.
  - rewrite andb_false_r. reflexivity.
  - destruct (String.eqb_spec t x) as [->|Hx]; cbn.
    + rewrite IH. destruct (String.eqb_spec t' x); cbn; reflexivity.
    + rewrite IH.
      destruct (String.eqb_spec t' x) as [->|]; cbn.
      * destruct (String.eqb_spec x t); [congruence | reflexivity].
      * reflexivity.
Qed.

Arguments JS.contains : simpl never.

Lemma deactivate_spec (e : Element) :
  el_id (deactivate e) = el_id e
  /\ is_page (deactivate e) = is_page e
  /\ (is_page e = true -> is_active (deactivate e) = false).
Proof.
  unfold deactivate, is_page, is_active.
  destruct (JS.contains (classList e) "page") eqn:E.
  - cbn. rewrite !contains_remove, E. repeat split.
  - repeat split; [exact E | discriminate].
Qed.

Lemma restyle_spec (pageId : option string) (e : Element) :
  is_page (restyle pageId e) = is_page e
  /\ is_active (restyle pageId e) = is_active e
  /\ is_nav_link (restyle pageId e) = is_nav_link e
  /\ dataset_page (restyle pageId e) = dataset_page e
  /\ (is_nav_link e = true ->
      link_marked (restyle pageId e)
      = option_string_eqb (dataset_page e) pageId).
Proof.
  unfold restyle, is_page, is_active, is_nav_link, link_marked, set_link_active.
  destruct (JS.contains (classList e) "nav-link") eqn:E.
  - destruct (option_string_eqb (dataset_page e) pageId); cbn;
      rewrite ?contains_add, ?contains_remove, ?E; cbn;
      rewrite ?orb_false_r, ?orb_true_r; repeat split.
  - repeat split; [exact E | discriminate].
Qed.

Lemma find_deactivate (i : string) (els : list Element) :
  getElementById i (map deactivate els)
  = option_map deactivate (getElementById i els).
Proof.
  unfold getElementById. induction els as [|e r IH]; [reflexivity|]. cbn.
  unfold has_id at 1. rewrite (proj1 (deactivate_spec e)). fold (has_id i e).
  destruct (has_id i e); [reflexivity | exact IH].
Qed.

Lemma shown_count_cons (e : Element) (els : list Element) :
  shown_count (e :: els)
  = ((if (is_page e && is_active e)%bool then 1 else 0) + shown_count els)%nat.
Proof.
  unfold shown_count. cbn.
  destruct (is_page e); cbn; [|reflexivity].
  destruct (is_active e); reflexivity.
Qed.

Lemma shown_count_deactivate (els : list Element) :
  shown_count (map deactivate els) = 0%nat.
Proof.
  induction els as [|e r IH]; [reflexivity|].
  cbn [map]. rewrite shown_count_cons, IH.
  destruct (deactivate_spec e) as (_ & Hp & Ha). rewrite Hp.
  destruct (is_page e); [rewrite (Ha eq_refl)|]; reflexivity.
Qed.

Lemma shown_count_restyle (pageId : option string) (els : list Element) :
  shown_count (map (restyle pageId) els) = shown_count els.
Proof.
  induction els as [|e r IH]; [reflexivity|].
  cbn [map]. rewrite !shown_count_cons, IH.
  destruct (restyle_spec pageId e) as (-> & -> & _). reflexivity.
Qed.

Lemma update_by_id_cons (i : string) (f : Element -> Element)
    (e : Element) (r : list Element) :
  update_by_id i f (e :: r)
  = if has_id i e then f e :: r else e :: update_by_id i f r.
Proof. reflexivity. Qed.

Lemma shown_count_activate (i : string) (els : list Element) (e : Element) :
  getElementById i els = Some e ->
  is_page e = true ->
  shown_count els = 0%nat ->
  shown_count (update_by_id i (add_class "active") els) = 1%nat.
Proof.
  unfold getElementById.
  induction els as [|x r IH]; intros Hf Hp H0; [discriminate|].
  cbn in Hf. rewrite update_by_id_cons. rewrite shown_count_cons in H0.
  destruct (has_id i x) eqn:Hx.
  - injection Hf as ->. rewrite shown_count_cons.
    assert (Hr : shown_count r = 0%nat) by lia. rewrite Hr.
    unfold is_page, is_active, add_class in *. cbn.
    rewrite !contains_add, Hp. cbn. rewrite orb_true_r. reflexivity.
  - rewrite shown_count_cons.
    destruct (is_page x && is_active x)%bool; [discriminate|].
    apply IH; assumption.
Qed.

(** With a [pageId] that is the id of a view, [showPage] completes, shows
    exactly that one view, and marks the links of that page and no other. *)
Lemma showPage_known_page (st : State) (pageId : option string) (e : Element) :
  getElementById (ToString pageId) (elements st) = Some e ->
  is_page e = true ->
  let st' := exec (showPage pageId) st in
  completes (showPage pageId) st = true
  /\ List.length (active_pages st') = 1%nat
  /\ (forall link, In link (navLinks st') ->
        link_marked link = option_string_eqb (dataset_page link) pageId).
Proof.
  intros Hf Hp.
  assert (Hf' : getElementById (ToString pageId) (map deactivate (elements st))
                = Some (deactivate e)).
  { rewrite find_deactivate, Hf. reflexivity. }
  unfold_script. cbn.
  change (fun page : Element => if is_page page then remove_class "active" page else page)
    with deactivate.
  rewrite Hf'. cbn.
  change (fun link : Element =>
            if is_nav_link link
            then set_link_active (option_string_eqb (dataset_page link) pageId) link
            else link)
    with (restyle pageId).
  split; [reflexivity|]. split.
  - unfold active_pages, pages. cbn [elements].
    fold (shown_count (map (restyle pageId)
            (update_by_id (ToString pageId) (add_class "active")
               (map deactivate (elements st))))).
    rewrite shown_count_restyle.
    apply (shown_count_activate _ _ (deactivate e) Hf').
    + rewrite (proj1 (proj2 (deactivate_spec e))). exact Hp.
    + apply shown_count_deactivate.
  - unfold navLinks. cbn [elements]. intros link Hin.
    apply filter_In in Hin. destruct Hin as [Hin Hn].
    apply in_map_iff in Hin. destruct Hin as (x & <- & _).
    destruct (restyle_spec pageId x) as (_ & _ & Hn' & Hd & Hm).
    rewrite Hd. apply Hm. rewrite <- Hn'. exact Hn.
Qed.

(** With a [pageId] that no element carries, [showPage] has hidden every
    view when the lookup returns [null], and throws. *)
Lemma showPage_unknown_page (st : State) (pageId : option string) :
  getElementById (ToString pageId) (elements st) = None ->
  let st' := exec (showPage pageId) st in
  fst (showPage pageId st) = Throw TypeError
  /\ elements st' = map deactivate (elements st)
  /\ active_pages st' = [].
Proof.
  intros Hf.
  assert (Hf' : getElementById (ToString pageId) (map deactivate (elements st))
                = None).
  { rewrite find_deactivate, Hf. reflexivity. }
  unfold_script. cbn.
  change (fun page : Element => if is_page page then remove_class "active" page else page)
    with deactivate.
  rewrite Hf'. cbn. repeat split.
  unfold active_pages, pages. cbn [elements].
  apply length_zero_iff_nil. apply shown_count_deactivate.
Qed.

Lemma map_update_by_id {B : Type} (g : Element -> B) (i : string)
    (f : Element -> Element) (els : list Element) :
  (forall e, g (f e) = g e) ->
  map g (update_by_id i f els) = map g els.
Proof.
  intros Hg. induction els as [|e r IH]; [reflexivity|].
  rewrite update_by_id_cons. destruct (has_id i e); cbn [map].
  - rewrite Hg. reflexivity.
  - rewrite IH. reflexivity.
Qed.

Lemma map_map_same {B : Type} (g : Element -> B) (h : Element -> Element)
    (els : list Element) :
  (forall e, g (h e) = g e) -> map g (map h els) = map g els.
Proof. intros Hg. rewrite map_map. apply map_ext, Hg. Qed.

Lemma deactivate_keeps (e : Element) :
  el_id (deactivate e) = el_id e
  /\ is_page (deactivate e) = is_page e
  /\ is_nav_link (deactivate e) = is_nav_link e.
Proof.
  unfold deactivate, is_page, is_nav_link.
  destruct (JS.contains (classList e) "page") eqn:E; cbn;
    rewrite ?contains_remove, ?E; repeat split.
Qed.

Lemma activate_keeps (e : Element) :
  el_id (add_class "active" e) = el_id e
  /\ is_page (add_class "active" e) = is_page e
  /\ is_nav_link (add_class "active" e) = is_nav_link e.
Proof.
  unfold is_page, is_nav_link, add_class. cbn.
  rewrite !contains_add. cbn. rewrite !orb_false_r. repeat split.
Qed.

Lemma restyle_keeps (pageId : option string) (e : Element) :
  el_id (restyle pageId e) = el_id e
  /\ is_page (restyle pageId e) = is_page e
  /\ is_nav_link (restyle pageId e) = is_nav_link e.
Proof.
  destruct (restyle_spec pageId e) as (Hp & _ & Hn & _).
  repeat split; try assumption.
  unfold restyle, set_link_active.
  destruct (is_nav_link e); [|reflexivity].
  destruct (option_string_eqb (dataset_page e) pageId); reflexivity.
Qed.

Lemma showPage_keeps_node_lists (st : State) (pageId : option string) :
  same_node_lists (elements st) (elements (exec (showPage pageId) st)).
Proof.
  unfold same_node_lists, showPage. unfold_script. cbn.
  change (fun page : Element => if is_page page then remove_class "active" page else page)
    with deactivate.
  change (fun link : Element =>
            if is_nav_link link
            then set_link_active (option_string_eqb (dataset_page link) pageId) link
            else link)
    with (restyle pageId).
  destruct (getElementById (ToString pageId) (map deactivate (elements st))); cbn.
  - repeat split;
      (rewrite map_map_same by apply restyle_keeps;
       rewrite map_update_by_id by apply activate_keeps;
       apply map_map_same, deactivate_keeps).
  - repeat split; apply map_map_same, deactivate_keeps.
Qed.

(** C5.  The code at a [pageId] that no element carries: on the loaded
    example page, where the logger view is shown, [showPage("settings-page")]
    hides every view and then throws a TypeError, where the specification
    has a silent no-op. *)
Theorem unknown_page_hides_views_and_throws :
  getElementById "settings-page" (elements loaded_state) = None
  /\ map el_id (active_pages loaded_state) = ["logger-page"]
  /\ fst (showPage (Some "settings-page") loaded_state) = Throw TypeError
  /\ active_pages (exec (showPage (Some "settings-page")) loaded_state) = [].
Proof. vm_compute. repeat split; reflexivity. Qed.

(** C6.  The code at the same call: afterwards no view is shown, and the
    one link that is marked is the logger link, not a link of the requested
    page, where the specification has exactly one view shown and only the
    requested page's link marked. *)
Theorem unknown_page_leaves_no_view_shown :
  let st' := exec (showPage (Some "settings-page")) loaded_state in
  List.length (active_pages st') = 0%nat
  /\ map dataset_page (filter link_marked (navLinks st')) = [Some "logger-page"].
Proof. vm_compute. split; reflexivity. Qed.

(** The switch the page makes on a valid submission, by contrast, shows one
    view. *)
Example dashboard_shown_after_submission :
  let st' := step loaded_state (Submit coffee) in
  map el_id (active_pages st') = ["dashboard-page"]
  /\ map dataset_page (filter link_marked (navLinks st')) = [Some "dashboard-page"].
Proof. vm_compute. split; reflexivity. Qed.


(* ================================================================== *)
(** * Further properties: statements in sequence *)
(* ================================================================== *)

Lemma exec_bind {A B : Type} (c : Script A) (k : Script B) (st : State) :
  exec (c ;; k) st = if completes c st then exec k (exec c st) else exec c st.
Proof.
  unfold exec, completes, bind. destruct (c st) as [[a|e] st']; reflexivity.
Qed.

Lemma completes_bind {A B : Type} (c : Script A) (k : Script B) (st : State) :
  completes (c ;; k) st = (completes c st && completes k (exec c st))%bool.
Proof.
  unfold exec, completes, bind. destruct (c st) as [[a|e] st']; reflexivity.
Qed.

Lemma setDefaultDate_completes (st : State) : completes setDefaultDate st = true.
Proof. run_script; reflexivity. Qed.

Lemma showPage_completes_iff (st : State) (pageId : option string) :
  completes (showPage pageId) st
  = match getElementById (ToString pageId) (elements st) with
    | Some _ => true
    | None => false
    end.
Proof.
  unfold_script. cbn.
  change (fun page : Element => if is_page page then remove_class "active" page else page)
    with deactivate.
  rewrite find_deactivate.
  destruct (getElementById (ToString pageId) (elements st)); reflexivity.
Qed.

Lemma completes_normal (c : Script unit) (st : State) :
  completes c st = true -> c st = (Normal tt, exec c st).
Proof.
  unfold completes, exec. destruct (c st) as [[[]|e] st']; cbn;
    [reflexivity | discriminate].
Qed.

Lemma accepted_completes (st : State) (s : Submission) :
  completes (accepted s) st = true.
Proof. unfold accepted. run_script; reflexivity. Qed.

(** A valid submission runs [accepted], which completes, and then
    [showPage('dashboard-page')]. *)
Lemma submit_valid_split (st : State) (s : Submission) :
  valid s = true ->
  handle (Submit s) st
  = showPage (Some "dashboard-page") (exec (accepted s) st).
Proof.
  intros Hv.
  cbv [handle handleFormSubmit accepted bind gets modify Date_now exec
       set_backgroundColor showMessage].
  cbn [fst snd expenseForm set_expenseForm form_description form_amount
       form_category form_date enter value].
  rewrite rejects_iff_not_valid, Hv. cbn [negb].
  match goal with
  | |- context [setDefaultDate ?x] =>
      pose proof (setDefaultDate_completes x) as H; unfold completes in H;
      destruct (setDefaultDate x) as [[[]|?] ?]; [clear H | discriminate]
  end.
  match goal with
  | |- context [updateUI ?x] =>
      pose proof (updateUI_completes x) as H; unfold completes in H;
      destruct (updateUI x) as [[[]|?] ?]; [clear H | discriminate]
  end.
  reflexivity.
Qed.

(** The state [accepted] leaves. *)
Lemma accepted_state (st : State) (s : Submission) :
  let st' := exec (accepted s) st in
  expenses st' = (expenses st ++ [newExpense st s])%list
  /\ elements st' = elements st
  /\ expenseForm st'
     = fresh_form (dateInput st) (clock st (S (clock_reads st)))
         (enter s (expenseForm st))
  /\ messageBox st'
     = mkMessageBox "Expense added successfully!"
         (JS.classList_add (mb_classList (messageBox st)) "show") "#22c55e"
  /\ timers st' = (timers st ++ [HideMessage 2000])%list
  /\ totalExpenditureEl st' = "$" ++ JS.toFixed (total (expenses st')) 2
  /\ rows st' = map expenseEl (sortedExpenses (expenses st')).
Proof.
  assert (Hne : forall (l : list Expense) x, (List.length (l ++ [x]) =? 0)%nat = false).
  { intros l x. rewrite length_app. cbn. apply Nat.eqb_neq. lia. }
  unfold accepted, rows, fresh_form, newExpense. unfold_script. cbn.
  destruct (dateInput st); cbn; rewrite Hne; cbn;
    destruct (emptyStateEl st); cbn;
    rewrite ?filter_rows; repeat split; reflexivity.
Qed.

(* ================================================================== *)
(** * Further properties: the view switcher *)
(* ================================================================== *)

Lemma filter_map_same {A : Type} (p : A -> bool) (f : A -> A) (l : list A) :
  (forall x, p (f x) = p x) -> filter p (map f l) = map f (filter p l).
Proof.
  intros H. induction l as [|x r IH]; [reflexivity|]. cbn.
  rewrite H, IH. destruct (p x); reflexivity.
Qed.

Lemma shown_filter_nil (els : list Element) :
  shown_count els = 0%nat -> filter is_active (filter is_page els) = [].
Proof. unfold shown_count. apply length_zero_iff_nil. Qed.

Lemma shown_after_activate (i : string) (els : list Element) (e : Element) :
  getElementById i els = Some e ->
  is_page e = true ->
  shown_count els = 0%nat ->
  filter is_active (filter is_page (update_by_id i (add_class "active") els))
  = [add_class "active" e].
Proof.
  unfold getElementById.
  induction els as [|x r IH]; intros Hf Hp H0; [discriminate|].
  cbn in Hf. rewrite update_by_id_cons. rewrite shown_count_cons in H0.
  destruct (has_id i x) eqn:Hx.
  - injection Hf as ->.
    assert (Hr : shown_count r = 0%nat) by lia.
    cbn [filter]. rewrite (proj1 (proj2 (activate_keeps e))), Hp. cbn [filter].
    replace (is_active (add_class "active" e)) with true.
    + rewrite (shown_filter_nil r Hr). reflexivity.
    + unfold is_active, add_class. cbn. rewrite contains_add. cbn.
      rewrite orb_true_r. reflexivity.
  - cbn [filter]. destruct (is_page x) eqn:Px; cbn [filter].
    + destruct (is_active x) eqn:Ax; [cbn in H0; discriminate|].
      apply IH; assumption.
    + apply IH; assumption.
Qed.

Lemma has_id_eq (i : string) (e : Element) : has_id i e = true -> el_id e = i.
Proof.
  unfold has_id. intros H. apply andb_prop in H. destruct H as [_ H].
  apply String.eqb_eq, H.
Qed.

(** The views shown after [showPage] found a view under [pageId]. *)
Lemma showPage_active_pages (st : State) (pageId : option string) (e : Element) :
  getElementById (ToString pageId) (elements st) = Some e ->
  is_page e = true ->
  active_pages (exec (showPage pageId) st)
  = [restyle pageId (add_class "active" (deactivate e))].
Proof.
  intros Hf Hp.
  assert (Hf' : getElementById (ToString pageId) (map deactivate (elements st))
                = Some (deactivate e)).
  { rewrite find_deactivate, Hf. reflexivity. }
  unfold_script. cbn.
  change (fun page : Element => if is_page page then remove_class "active" page else page)
    with deactivate.
  rewrite Hf'. cbn.
  change (fun link : Element =>
            if is_nav_link link
            then set_link_active (option_string_eqb (dataset_page link) pageId) link
            else link)
    with (restyle pageId).
  unfold active_pages, pages. cbn [elements].
  rewrite (filter_map_same is_page)
    by (intros x; apply (proj1 (restyle_spec pageId x))).
  rewrite (filter_map_same is_active)
    by (intros x; apply (proj1 (proj2 (restyle_spec pageId x)))).
  rewrite (shown_after_activate _ _ (deactivate e) Hf').
  - reflexivity.
  - rewrite (proj1 (proj2 (deactivate_spec e))). exact Hp.
  - apply shown_count_deactivate.
Qed.

Lemma showPage_active_ids (st : State) (pageId : option string) (e : Element) :
  getElementById (ToString pageId) (elements st) = Some e ->
  is_page e = true ->
  map el_id (active_pages (exec (showPage pageId) st)) = [ToString pageId].
Proof.
  intros Hf Hp. rewrite (showPage_active_pages st pageId e Hf Hp). cbn [map].
  rewrite (proj1 (restyle_keeps pageId _)).
  unfold add_class. cbn [el_id]. rewrite (proj1 (deactivate_spec e)).
  unfold getElementById in Hf. apply find_some in Hf.
  rewrite (has_id_eq _ _ (proj2 Hf)). reflexivity.
Qed.

(** After a [showPage] that completes, the navigation links that carry the
    mark are those of the requested page. *)
Lemma showPage_links (st : State) (pageId : option string) :
  completes (showPage pageId) st = true ->
  forall link, In link (navLinks (exec (showPage pageId) st)) ->
  link_marked link = option_string_eqb (dataset_page link) pageId.
Proof.
  rewrite showPage_completes_iff. intros Hc.
  unfold_script. cbn.
  change (fun page : Element => if is_page page then remove_class "active" page else page)
    with deactivate.
  rewrite find_deactivate.
  destruct (getElementById (ToString pageId) (elements st)); [|discriminate].
  cbn.
  change (fun link : Element =>
            if is_nav_link link
            then set_link_active (option_string_eqb (dataset_page link) pageId) link
            else link)
    with (restyle pageId).
  unfold navLinks. cbn [elements]. intros link Hin.
  apply filter_In in Hin. destruct Hin as [Hin Hn].
  apply in_map_iff in Hin. destruct Hin as (x & <- & _).
  destruct (restyle_spec pageId x) as (_ & _ & Hn' & Hd & Hm).
  rewrite Hd. apply Hm. rewrite <- Hn'. exact Hn.
Qed.

(** X1.  When [pageId] is the id of a view, [showPage] completes, the one
    view left active is the view with that id, and a navigation link carries
    the active mark exactly when its [data-page] is [pageId]. *)
Theorem showPage_shows_requested_page
    (st : State) (pageId : option string) (e : Element) :
  getElementById (ToString pageId) (elements st) = Some e ->
  is_page e = true ->
  let st' := exec (showPage pageId) st in
  completes (showPage pageId) st = true
  /\ map el_id (active_pages st') = [ToString pageId]
  /\ (forall link, In link (navLinks st') ->
        link_marked link = option_string_eqb (dataset_page link) pageId).
Proof.
  intros Hf Hp st'.
  assert (Hc : completes (showPage pageId) st = true)
    by (rewrite showPage_completes_iff, Hf; reflexivity).
  split; [exact Hc|]. split.
  - apply (showPage_active_ids st pageId e Hf Hp).
  - apply showPage_links, Hc.
Qed.

Lemma showPage_shows_requested_page_witness :
  let st' := exec (showPage (Some "dashboard-page")) loaded_state in
  completes (showPage (Some "dashboard-page")) loaded_state = true
  /\ map el_id (active_pages st') = ["dashboard-page"]
  /\ (forall link, In link (navLinks st') ->
        link_marked link
        = option_string_eqb (dataset_page link) (Some "dashboard-page")).
Proof.
  apply (showPage_shows_requested_page loaded_state (Some "dashboard-page")
           (mkElement "dashboard-page" ["page"] None)).
  - vm_compute. reflexivity.
  - reflexivity.
Defined.

Lemma showPage_timers (st : State) (pageId : option string) :
  timers (exec (showPage pageId) st) = timers st.
Proof. run_script; reflexivity. Qed.

Lemma deactivate_other (e : Element) : is_page e = false -> deactivate e = e.
Proof. unfold deactivate. intros ->. reflexivity. Qed.

(** X2.  When no element carries the id [pageId] (for a link without a
    [data-page] attribute, the id "undefined"), [showPage] throws a TypeError
    after its first pass: every view has lost the token [active], the
    elements that are not views, the navigation links among them, are as they
    were, and nothing else of the page has changed. *)
Theorem showPage_without_target (st : State) (pageId : option string) :
  getElementById (ToString pageId) (elements st) = None ->
  let st' := exec (showPage pageId) st in
  fst (showPage pageId st) = Throw TypeError
  /\ active_pages st' = []
  /\ List.length (elements st') = List.length (elements st)
  /\ (forall n e, nth_error (elements st) n = Some e -> is_page e = false ->
        nth_error (elements st') n = Some e)
  /\ expenses st' = expenses st
  /\ expenseListEl st' = expenseListEl st
  /\ messageBox st' = messageBox st.
Proof.
  intros Hf st'.
  destruct (showPage_unknown_page st pageId Hf) as (Ht & He & Ha).
  destruct (showPage_widgets st pageId) as (_ & Hl & _ & Hm).
  subst st'. rewrite He in *.
  repeat split; try assumption.
  - apply length_map.
  - intros n e Hn Hp. rewrite nth_error_map, Hn. cbn.
    rewrite (deactivate_other e Hp). reflexivity.
  - apply showPage_expenses.
Qed.

Lemma showPage_without_target_witness :
  let st' := exec (navClick bare_link) loaded_state in
  fst (navClick bare_link loaded_state) = Throw TypeError
  /\ active_pages st' = []
  /\ List.length (elements st') = List.length (elements loaded_state)
  /\ (forall n e, nth_error (elements loaded_state) n = Some e ->
        is_page e = false -> nth_error (elements st') n = Some e)
  /\ expenses st' = expenses loaded_state
  /\ expenseListEl st' = expenseListEl loaded_state
  /\ messageBox st' = messageBox loaded_state.
Proof.
  apply (showPage_without_target loaded_state None).
  vm_compute. reflexivity.
Defined.

(* ================================================================== *)
(** * Further properties: submissions *)
(* ================================================================== *)

Lemma step_submit_valid (st : State) (s : Submission) :
  valid s = true ->
  step st (Submit s) = exec (showPage (Some "dashboard-page")) (exec (accepted s) st).
Proof.
  intros Hv. unfold step. unfold exec at 1.
  rewrite (submit_valid_split st s Hv). reflexivity.
Qed.

(** X3.  A valid submission leaves the form reset: description, amount and
    category show their default values again, and the date control shows the
    UTC day of the clock reading taken by [setDefaultDate] (the reading after
    the one that became the id) when the date input exists, and its default
    value otherwise.  The default values themselves are kept. *)
Theorem accepted_submission_resets_form (st : State) (s : Submission) :
  valid s = true ->
  let f := expenseForm st in
  let f' := expenseForm (step st (Submit s)) in
  value (form_description f') = defaultValue (form_description f)
  /\ value (form_amount f') = defaultValue (form_amount f)
  /\ value (form_category f') = defaultValue (form_category f)
  /\ value (form_date f')
     = (if dateInput st
        then JS.date_value_of_time (clock st (S (clock_reads st)))
        else defaultValue (form_date f))
  /\ defaultValue (form_description f') = defaultValue (form_description f)
  /\ defaultValue (form_amount f') = defaultValue (form_amount f)
  /\ defaultValue (form_category f') = defaultValue (form_category f)
  /\ defaultValue (form_date f') = defaultValue (form_date f).
Proof.
  intros Hv f f'. subst f f'. rewrite (step_submit_valid st s Hv).
  destruct (showPage_widgets (exec (accepted s) st) (Some "dashboard-page"))
    as (_ & _ & -> & _).
  destruct (accepted_state st s) as (_ & _ & -> & _).
  unfold fresh_form. destruct (dateInput st); repeat split; reflexivity.
Qed.

Lemma accepted_submission_resets_form_witness :
  let f := expenseForm loaded_state in
  let f' := expenseForm (step loaded_state (Submit coffee)) in
  value (form_description f') = defaultValue (form_description f)
  /\ value (form_amount f') = defaultValue (form_amount f)
  /\ value (form_category f') = defaultValue (form_category f)
  /\ value (form_date f')
     = (if dateInput loaded_state
        then JS.date_value_of_time (clock loaded_state (S (clock_reads loaded_state)))
        else defaultValue (form_date f))
  /\ defaultValue (form_description f') = defaultValue (form_description f)
  /\ defaultValue (form_amount f') = defaultValue (form_amount f)
  /\ defaultValue (form_category f') = defaultValue (form_category f)
  /\ defaultValue (form_date f') = defaultValue (form_date f).
Proof.
  apply (accepted_submission_resets_form loaded_state coffee).
  vm_compute. reflexivity.
Defined.



(** X5.  A valid submission on a page whose [dashboard-page] is a view
    switches to it: afterwards the dashboard is the one view shown and the
    marked navigation links are those with [data-page] "dashboard-page". *)
Theorem accepted_submission_shows_dashboard
    (st : State) (s : Submission) (e : Element) :
  valid s = true ->
  getElementById "dashboard-page" (elements st) = Some e ->
  is_page e = true ->
  let st' := step st (Submit s) in
  map el_id (active_pages st') = ["dashboard-page"]
  /\ (forall link, In link (navLinks st') ->
        link_marked link
        = option_string_eqb (dataset_page link) (Some "dashboard-page")).
Proof.
  intros Hv Hf Hp st'. subst st'. rewrite (step_submit_valid st s Hv).
  destruct (accepted_state st s) as (_ & Hel & _).
  split.
  - apply (showPage_active_ids _ (Some "dashboard-page") e); [|exact Hp].
    cbn [ToString]. rewrite Hel. exact Hf.
  - apply showPage_links. rewrite showPage_completes_iff. cbn [ToString].
    rewrite Hel, Hf. reflexivity.
Qed.

Lemma accepted_submission_shows_dashboard_witness :
  let st' := step loaded_state (Submit coffee) in
  map el_id (active_pages st') = ["dashboard-page"]
  /\ (forall link, In link (navLinks st') ->
        link_marked link
        = option_string_eqb (dataset_page link) (Some "dashboard-page")).
Proof.
  apply (accepted_submission_shows_dashboard loaded_state coffee
           (mkElement "dashboard-page" ["page"] None)).
  - vm_compute. reflexivity.
  - vm_compute. reflexivity.
  - reflexivity.
Defined.

(** X6.  A rejected submission touches the message box and the timers
    only: the view is not switched, the total and the list are not rendered
    again, the clock is not read, and one hide timer is scheduled. *)
Theorem rejected_submission_leaves_page (st : State) (s : Submission) :
  valid s = false ->
  let st' := step st (Submit s) in
  elements st' = elements st
  /\ totalExpenditureEl st' = totalExpenditureEl st
  /\ expenseListEl st' = expenseListEl st
  /\ clock_reads st' = clock_reads st
  /\ timers st' = (timers st ++ [HideMessage 2000])%list.
Proof.
  intros Hv st'.
  destruct (submit_invalid_state st s Hv)
    as (_ & _ & _ & _ & Ht & He & Htot & Hl & Hr).
  repeat split; assumption.
Qed.

Lemma rejected_submission_leaves_page_witness :
  let st' := step loaded_state (Submit zero_amount) in
  elements st' = elements loaded_state
  /\ totalExpenditureEl st' = totalExpenditureEl loaded_state
  /\ expenseListEl st' = expenseListEl loaded_state
  /\ clock_reads st' = clock_reads loaded_state
  /\ timers st' = (timers loaded_state ++ [HideMessage 2000])%list.
Proof.
  apply (rejected_submission_leaves_page loaded_state zero_amount).
  vm_compute. reflexivity.
Defined.

(* ================================================================== *)
(** * Further properties: sessions *)
(* ================================================================== *)

Lemma same_node_lists_refl (els : list Element) : same_node_lists els els.
Proof. repeat split. Qed.

Lemma same_node_lists_trans (a b c : list Element) :
  same_node_lists a b -> same_node_lists b c -> same_node_lists a c.
Proof.
  intros (H1 & H2 & H3) (K1 & K2 & K3).
  repeat split; etransitivity; eassumption.
Qed.

Lemma step_elements (st : State) (ev : Event) :
  same_node_lists (elements st) (elements (step st ev)).
Proof.
  destruct ev as [s | link | ].
  - destruct (valid s) eqn:Hv.
    + rewrite (step_submit_valid st s Hv).
      destruct (accepted_state st s) as (_ & Hel & _).
      rewrite <- Hel at 1. apply showPage_keeps_node_lists.
    + destruct (submit_invalid_state st s Hv) as (_ & _ & _ & _ & _ & -> & _).
      apply same_node_lists_refl.
  - apply showPage_keeps_node_lists.
  - run_script; apply same_node_lists_refl.
Qed.



Lemma step_records (st : State) (ev : Event) :
  map record_of (expenses (step st ev))
  = (map record_of (expenses st)
     ++ map entry_of (filter valid (submissions [ev])))%list.
Proof.
  destruct ev as [s | link | ]; cbn [submissions flat_map app filter].
  - destruct (valid s) eqn:Hv.
    + rewrite (submit_valid_expenses st s Hv), map_app. reflexivity.
    + destruct (submit_invalid_state st s Hv) as (_ & -> & _).
      cbn. rewrite app_nil_r. reflexivity.
  - unfold step, handle, navClick. rewrite showPage_expenses.
    cbn. rewrite app_nil_r. reflexivity.
  - cbn. rewrite app_nil_r. run_script; reflexivity.
Qed.

Lemma submissions_cons (ev : Event) (evs : list Event) :
  submissions (ev :: evs) = (submissions [ev] ++ submissions evs)%list.
Proof. unfold submissions. cbn. rewrite app_nil_r. reflexivity. Qed.

(** X8.  The store is append-only and holds the valid submissions in the
    order they were made: after any sequence of events the records, leaving
    the ids aside, are those stored before followed by one record for each
    submission that passes the validation, with description, category and
    date as submitted and the amount parsed; from load, exactly these. *)
Theorem store_is_valid_submissions (st : State) (evs : list Event) :
  map record_of (expenses (run evs st))
  = (map record_of (expenses st)
     ++ map entry_of (filter valid (submissions evs)))%list
  /\ map record_of (expenses (session st evs))
     = map entry_of (filter valid (submissions evs)).
Proof.
  assert (H : forall st,
             map record_of (expenses (run evs st))
             = (map record_of (expenses st)
                ++ map entry_of (filter valid (submissions evs)))%list).
  { induction evs as [|ev evs IH]; intros st'.
    - cbn. rewrite app_nil_r. reflexivity.
    - rewrite run_cons, IH, step_records, (submissions_cons ev evs).
      rewrite filter_app, map_app, app_assoc. reflexivity. }
  split; [apply H|].
  unfold session. rewrite H.
  destruct (load_effect st) as [-> _]. reflexivity.
Qed.

(** The ids in the store are readings of the clock at increasing, past
    positions. *)
Lemma step_ids_in_order (st : State) (ev : Event) (ks : list nat) :
  map id (expenses st) = map (clock st) ks ->
  StronglySorted lt ks ->
  Forall (fun k => (k < clock_reads st)%nat) ks ->
  exists ks',
    map id (expenses (step st ev)) = map (clock st) ks'
    /\ StronglySorted lt ks'
    /\ Forall (fun k => (k < clock_reads (step st ev))%nat) ks'.
Proof.
  intros Hm Hs Hb.
  destruct (step_effect st ev) as [_ [[He Hr] | (s & _ & _ & He & Hr)]].
  - exists ks. rewrite He. repeat split; try assumption.
    eapply Forall_impl; [|exact Hb]. cbn. intros k Hk. lia.
  - exists (ks ++ [clock_reads st])%list. rewrite He, !map_app, Hm.
    repeat split.
    + clear Hm. induction Hs as [|k r Hs IH Hk]; cbn.
      * repeat constructor.
      * inversion Hb; subst. constructor; [apply IH; assumption|].
        apply Forall_app. split; [exact Hk|]. constructor; [assumption|constructor].
    + apply Forall_app. split.
      * eapply Forall_impl; [|exact Hb]. cbn. intros k Hk. lia.
      * constructor; [exact Hr | constructor].
Qed.

Lemma run_ids_in_order (evs : list Event) :
  forall st ks,
  map id (expenses st) = map (clock st) ks ->
  StronglySorted lt ks ->
  Forall (fun k => (k < clock_reads st)%nat) ks ->
  exists ks',
    map id (expenses (run evs st)) = map (clock st) ks'
    /\ StronglySorted lt ks'.
Proof.
  induction evs as [|ev evs IH]; intros st ks Hm Hs Hb.
  - exists ks. split; assumption.
  - rewrite run_cons.
    destruct (step_ids_in_order st ev ks Hm Hs Hb) as (ks' & Hm' & Hs' & Hb').
    assert (Hc : clock (step st ev) = clock st) by apply step_effect.
    rewrite <- Hc in Hm'.
    destruct (IH (step st ev) ks' Hm' Hs' Hb') as (ks'' & Hm'' & Hs'').
    exists ks''. rewrite <- Hc. split; assumption.
Qed.

(** X9.  When the clock advances between readings, the ids of the records
    of a session increase in insertion order. *)
Theorem ids_increase_with_the_clock (st0 : State) (evs : list Event) :
  (forall i j, (i < j)%nat -> clock st0 i < clock st0 j) ->
  StronglySorted Z.lt (map id (expenses (session st0 evs))).
Proof.
  intros Hmono. unfold session.
  destruct (load_effect st0) as [He Hc].
  destruct (run_ids_in_order evs (exec DOMContentLoaded st0) [])
    as (ks & Hm & Hs).
  - rewrite He. reflexivity.
  - constructor.
  - constructor.
  - rewrite Hm, Hc. clear Hm.
    induction Hs as [|k r Hs IH Hk]; cbn; constructor; [exact IH|].
    apply Forall_map. eapply Forall_impl; [|exact Hk].
    cbn. intros j Hj. apply Hmono, Hj.
Qed.

Lemma ids_increase_with_the_clock_witness :
  StronglySorted Z.lt
    (map id (expenses (session example_state [Submit coffee; Submit tea]))).
Proof.
  apply (ids_increase_with_the_clock example_state [Submit coffee; Submit tea]).
  intros i j H. unfold example_state. cbn [clock]. lia.
Defined.

(* ================================================================== *)
(** * Further properties: the renderer *)
(* ================================================================== *)

Lemma updateUI_list (st : State) :
  expenseListEl (exec updateUI st)
  = match expenses st with
    | [] => [placeholder_node (emptyStateEl st)]
    | _ => map expenseEl (sortedExpenses (expenses st))
    end.
Proof.
  unfold placeholder_node.
  destruct (expenses st) as [|e r] eqn:E.
  - run_script; rewrite E in *; try discriminate; reflexivity.
  - rewrite <- E. apply updateUI_rows. rewrite E. discriminate.
Qed.

Lemma updateUI_frame (st : State) :
  let st' := exec updateUI st in
  elements st' = elements st
  /\ expenseForm st' = expenseForm st
  /\ messageBox st' = messageBox st
  /\ timers st' = timers st
  /\ emptyStateEl st' = emptyStateEl st
  /\ clock_reads st' = clock_reads st.
Proof. run_script; repeat split; congruence. Qed.

(** The page after [updateUI]: the text of the total element and the
    children of the list container are replaced, nothing else. *)
Lemma updateUI_state (st : State) :
  exec updateUI st
  = set_expenseListEl
      (match expenses st with
       | [] => [placeholder_node (emptyStateEl st)]
       | _ => map expenseEl (sortedExpenses (expenses st))
       end)
      (set_totalExpenditureEl ("$" ++ JS.toFixed (total (expenses st)) 2) st).
Proof.
  unfold placeholder_node.
  destruct (expenses st) as [|e r] eqn:E; destruct (emptyStateEl st) eqn:Em;
    unfold_script; cbn; rewrite E; cbn; rewrite Em; cbn; reflexivity.
Qed.

(** X10.  What [updateUI] writes depends on the store and on whether the
    placeholder element exists, and on nothing else: not on what the total
    element and the list container held before. *)
Theorem updateUI_reads_only_the_store (st1 st2 : State) :
  expenses st1 = expenses st2 ->
  emptyStateEl st1 = emptyStateEl st2 ->
  totalExpenditureEl (exec updateUI st1) = totalExpenditureEl (exec updateUI st2)
  /\ expenseListEl (exec updateUI st1) = expenseListEl (exec updateUI st2).
Proof.
  intros He Hp. rewrite !updateUI_total, !updateUI_list, He, Hp.
  split; reflexivity.
Qed.

Lemma updateUI_reads_only_the_store_witness :
  totalExpenditureEl (exec updateUI two_records)
  = totalExpenditureEl
      (exec updateUI (set_expenseListEl [] (set_totalExpenditureEl "" two_records)))
  /\ expenseListEl (exec updateUI two_records)
     = expenseListEl
         (exec updateUI (set_expenseListEl [] (set_totalExpenditureEl "" two_records))).
Proof.
  apply (updateUI_reads_only_the_store two_records
           (set_expenseListEl [] (set_totalExpenditureEl "" two_records)));
    reflexivity.
Defined.

(** X11.  Rendering twice is rendering once: a second [updateUI] on the
    same store leaves the whole page as the first one left it. *)
Theorem updateUI_twice (st : State) :
  exec updateUI (exec updateUI st) = exec updateUI st.
Proof.
  rewrite (updateUI_state (exec updateUI st)).
  rewrite updateUI_expenses.
  rewrite (proj1 (proj2 (proj2 (proj2 (proj2 (updateUI_frame st)))))).
  rewrite (updateUI_state st). reflexivity.
Qed.

(** X12.  Whatever the dates, valid or not, every stored record has exactly
    one row: the rows are the rows of the records in some order. *)
Theorem updateUI_renders_every_record (st : State) :
  Permutation (rows (exec updateUI st)) (map expenseEl (expenses st))
  /\ List.length (rows (exec updateUI st)) = List.length (expenses st).
Proof.
  rewrite updateUI_all_rows. unfold sortedExpenses. split.
  - apply Permutation_map, sort_perm.
  - rewrite length_map. apply Permutation_length, sort_perm.
Qed.

Section Ties.
Context {A : Type}.
Variable comparefn : A -> A -> option Z.
Variable key : A -> Z.
Variable ok : A -> Prop.
Hypothesis comparefn_key :
  forall a b, ok a -> ok b ->
  JS.comes_after comparefn a b = (key a <? key b).


End Ties.



(* ================================================================== *)
(** * Further properties: load *)
(* ================================================================== *)

Lemma load_split (st0 : State) :
  exec DOMContentLoaded st0
  = (if completes (showPage (Some "logger-page")) (before_first_show st0)
     then exec updateUI (exec (showPage (Some "logger-page")) (before_first_show st0))
     else exec (showPage (Some "logger-page")) (before_first_show st0))
  /\ completes DOMContentLoaded st0
     = completes (showPage (Some "logger-page")) (before_first_show st0).
Proof.
  unfold DOMContentLoaded, before_first_show. split.
  - rewrite exec_bind. cbn [completes modify fst].
    rewrite exec_bind, setDefaultDate_completes.
    rewrite exec_bind. reflexivity.
  - rewrite completes_bind. cbn [completes modify fst andb].
    rewrite completes_bind, setDefaultDate_completes. cbn [andb].
    rewrite completes_bind, updateUI_completes. apply andb_true_r.
Qed.

Lemma before_first_show_state (st0 : State) :
  let st := before_first_show st0 in
  expenses st = []
  /\ elements st = elements st0
  /\ totalExpenditureEl st = totalExpenditureEl st0
  /\ expenseListEl st = expenseListEl st0
  /\ emptyStateEl st = emptyStateEl st0
  /\ messageBox st = messageBox st0
  /\ timers st = timers st0.
Proof.
  unfold before_first_show. run_script; repeat split; reflexivity.
Qed.

Lemma showPage_emptyStateEl (st : State) (pageId : option string) :
  emptyStateEl (exec (showPage pageId) st) = emptyStateEl st.
Proof. run_script; reflexivity. Qed.

(** After a load that found the logger view: completion and the view shown. *)
Lemma load_shows_logger_view (st0 : State) (e : Element) :
  getElementById "logger-page" (elements st0) = Some e ->
  is_page e = true ->
  completes DOMContentLoaded st0 = true
  /\ active_pages (exec DOMContentLoaded st0)
     = [restyle (Some "logger-page") (add_class "active" (deactivate e))].
Proof.
  intros Hf Hp.
  destruct (load_split st0) as [Hx Hc].
  destruct (before_first_show_state st0) as (_ & Hel & _).
  set (b := before_first_show st0) in *.
  assert (Hf' : getElementById (ToString (Some "logger-page")) (elements b) = Some e)
    by (cbn [ToString]; rewrite Hel; exact Hf).
  assert (Hs : completes (showPage (Some "logger-page")) b = true)
    by (rewrite showPage_completes_iff, Hf'; reflexivity).
  rewrite Hx, Hc, Hs. split; [reflexivity|].
  unfold active_pages, pages. rewrite (proj1 (updateUI_frame _)).
  apply (showPage_active_pages b (Some "logger-page") e Hf' Hp).
Qed.

(** X14.  Load on a page whose [logger-page] is a view completes and leaves
    the store empty, the total "$0.00", the placeholder (the page's element,
    or the created paragraph when it is missing) as the only child of the
    list, and the logger view as the one view shown. *)
Theorem load_shows_empty_logger (st0 : State) (e : Element) :
  getElementById "logger-page" (elements st0) = Some e ->
  is_page e = true ->
  let st := exec DOMContentLoaded st0 in
  completes DOMContentLoaded st0 = true
  /\ expenses st = []
  /\ totalExpenditureEl st = "$0.00"
  /\ expenseListEl st = [placeholder_node (emptyStateEl st0)]
  /\ map el_id (active_pages st) = ["logger-page"].
Proof.
  intros Hf Hp st. subst st.
  destruct (load_split st0) as [Hx Hc].
  destruct (before_first_show_state st0) as (He & Hel & _ & _ & Hem & _).
  set (b := before_first_show st0) in *.
  assert (Hf' : getElementById (ToString (Some "logger-page")) (elements b) = Some e)
    by (cbn [ToString]; rewrite Hel; exact Hf).
  assert (Hs : completes (showPage (Some "logger-page")) b = true)
    by (rewrite showPage_completes_iff, Hf'; reflexivity).
  rewrite Hx, Hc, Hs.
  set (c := exec (showPage (Some "logger-page")) b).
  assert (Hce : expenses c = []) by (unfold c; rewrite showPage_expenses; exact He).
  destruct (updateUI_frame c) as (Fel & _ & _ & _ & _).
  split; [reflexivity|]. split; [rewrite updateUI_expenses; exact Hce|].
  split; [rewrite updateUI_total, Hce; vm_compute; reflexivity|].
  split.
  - rewrite updateUI_list, Hce. unfold c.
    rewrite showPage_emptyStateEl. fold b. rewrite Hem. reflexivity.
  - unfold active_pages, pages. rewrite Fel.
    apply (showPage_active_ids b (Some "logger-page") e Hf' Hp).
Qed.

Lemma load_shows_empty_logger_witness :
  let st := exec DOMContentLoaded example_state in
  completes DOMContentLoaded example_state = true
  /\ expenses st = []
  /\ totalExpenditureEl st = "$0.00"
  /\ expenseListEl st = [placeholder_node (emptyStateEl example_state)]
  /\ map el_id (active_pages st) = ["logger-page"].
Proof.
  apply (load_shows_empty_logger example_state
           (mkElement "logger-page" ["page"; "active"] None));
    reflexivity.
Defined.

(** X15.  Load on a page with no element of the id [logger-page] throws in
    [showPage] before anything is rendered: the total element and the list
    container keep what the document came with, no view is shown, and the
    store is empty. *)
Theorem load_without_logger_renders_nothing (st0 : State) :
  getElementById "logger-page" (elements st0) = None ->
  let st := exec DOMContentLoaded st0 in
  completes DOMContentLoaded st0 = false
  /\ expenses st = []
  /\ totalExpenditureEl st = totalExpenditureEl st0
  /\ expenseListEl st = expenseListEl st0
  /\ active_pages st = [].
Proof.
  intros Hf st. subst st.
  destruct (load_split st0) as [Hx Hc].
  destruct (before_first_show_state st0) as (He & Hel & Ht & Hl & _).
  set (b := before_first_show st0) in *.
  assert (Hf' : getElementById (ToString (Some "logger-page")) (elements b) = None)
    by (cbn [ToString]; rewrite Hel; exact Hf).
  assert (Hs : completes (showPage (Some "logger-page")) b = false)
    by (rewrite showPage_completes_iff, Hf'; reflexivity).
  rewrite Hx, Hc, Hs.
  destruct (showPage_widgets b (Some "logger-page")) as (Wt & Wl & _).
  destruct (showPage_unknown_page b (Some "logger-page") Hf') as (_ & _ & Ha).
  rewrite showPage_expenses, Wt, Wl.
  repeat split; assumption.
Qed.

Lemma load_without_logger_renders_nothing_witness :
  let st := exec DOMContentLoaded no_logger_state in
  completes DOMContentLoaded no_logger_state = false
  /\ expenses st = []
  /\ totalExpenditureEl st = totalExpenditureEl no_logger_state
  /\ expenseListEl st = expenseListEl no_logger_state
  /\ active_pages st = [].
Proof.
  apply (load_without_logger_renders_nothing no_logger_state).
  vm_compute. reflexivity.
Defined.

(* ================================================================== *)
(** * Further properties: the display follows the store *)
(* ================================================================== *)




(* ================================================================== *)
(** * Further properties: the message box *)
(* ================================================================== *)

Lemma submit_message (st : State) (s : Submission) :
  messageBox (step st (Submit s))
  = mkMessageBox (message_for s)
      (JS.classList_add (mb_classList (messageBox st)) "show")
      (if valid s then "#22c55e" else "#ef4444")
  /\ timers (step st (Submit s)) = (timers st ++ [HideMessage 2000])%list.
Proof.
  unfold message_for. destruct (valid s) eqn:Hv.
  - rewrite (step_submit_valid st s Hv).
    destruct (accepted_state st s) as (_ & _ & _ & Hm & Ht & _).
    destruct (showPage_widgets (exec (accepted s) st) (Some "dashboard-page"))
      as (_ & _ & _ & Wm).
    rewrite Wm, showPage_timers. split; assumption.
  - destruct (submit_invalid_state st s Hv) as (_ & _ & _ & Hm & Ht & _).
    split; assumption.
Qed.

(** X17.  Hide timers are not tied to their message.  When a timer is
    already pending, the message of a new submission, accepted or rejected,
    is taken down by that older timer when it fires: the box then still
    holds the new text but no longer the token [show], while the new
    message's own timer is still pending. *)
Theorem older_timer_hides_newer_message (st : State) (s : Submission) :
  timers st <> [] ->
  let shown := step st (Submit s) in
  let st' := step shown Timeout in
  JS.contains (mb_classList (messageBox shown)) "show" = true
  /\ JS.contains (mb_classList (messageBox st')) "show" = false
  /\ textContent (messageBox st') = message_for s
  /\ List.length (timers st') = List.length (timers st)
  /\ last (timers st') (HideMessage 0) = HideMessage 2000.
Proof.
  intros Hne shown st'. subst shown st'.
  destruct (submit_message st s) as [Hm Ht].
  set (shown := step st (Submit s)) in *.
  split; [rewrite Hm; apply contains_classList_add|].
  destruct (timers st) as [|[d] rest] eqn:E; [congruence|].
  unfold step at 1. unfold_script. cbn. rewrite Ht. cbn.
  rewrite Hm. cbn.
  split; [rewrite contains_remove; reflexivity|].
  split; [reflexivity|].
  split; [rewrite length_app; cbn; lia|].
  apply last_last.
Qed.

Lemma older_timer_hides_newer_message_witness :
  let shown := step (step loaded_state (Submit zero_amount)) (Submit coffee) in
  let st' := step shown Timeout in
  JS.contains (mb_classList (messageBox shown)) "show" = true
  /\ JS.contains (mb_classList (messageBox st')) "show" = false
  /\ textContent (messageBox st') = message_for coffee
  /\ List.length (timers st')
     = List.length (timers (step loaded_state (Submit zero_amount)))
  /\ last (timers st') (HideMessage 0) = HideMessage 2000.
Proof.
  apply (older_timer_hides_newer_message
           (step loaded_state (Submit zero_amount)) coffee).
  vm_compute. discriminate.
Defined.

(* ================================================================== *)
(** * Further properties: one view at a time *)
(* ================================================================== *)

Lemma names_view_same (els els' : list Element) (pageId : option string) :
  same_node_lists els els' -> names_view els pageId -> names_view els' pageId.
Proof.
  intros (Hid & Hp & _) (e & Hf & He). unfold names_view, getElementById in *.
  revert els' Hid Hp. induction els as [|x r IH]; intros [|y r'] Hid Hp;
    try discriminate.
  cbn in Hid, Hp. injection Hid as Hxy Hr. injection Hp as Pxy Pr.
  cbn in Hf |- *. unfold has_id in *. rewrite Hxy.
  destruct (negb (ToString pageId =? "")%string && (el_id x =? ToString pageId)%string)%bool.
  - injection Hf as <-. exists y. split; [reflexivity | congruence].
  - apply IH; assumption.
Qed.

Lemma load_elements (st0 : State) :
  same_node_lists (elements st0) (elements (exec DOMContentLoaded st0)).
Proof.
  destruct (load_split st0) as [-> _].
  destruct (before_first_show_state st0) as (_ & Hel & _).
  rewrite <- Hel.
  destruct (completes (showPage (Some "logger-page")) (before_first_show st0)).
  - rewrite (proj1 (updateUI_frame _)). apply showPage_keeps_node_lists.
  - apply showPage_keeps_node_lists.
Qed.

Lemma showPage_one_view (st : State) (pageId : option string) :
  names_view (elements st) pageId ->
  List.length (active_pages (exec (showPage pageId) st)) = 1%nat.
Proof.
  intros (e & Hf & Hp). rewrite (showPage_active_pages st pageId e Hf Hp).
  reflexivity.
Qed.

Lemma step_one_view (els : list Element) (st : State) (ev : Event) :
  names_view els (Some "dashboard-page") ->
  clicks_name_views els [ev] ->
  same_node_lists els (elements st) ->
  List.length (active_pages st) = 1%nat ->
  List.length (active_pages (step st ev)) = 1%nat.
Proof.
  intros Hd Hc Hs H1. inversion Hc as [|? ? Hev _]; subst.
  destruct ev as [s | link | ].
  - destruct (valid s) eqn:Hv.
    + rewrite (step_submit_valid st s Hv). apply showPage_one_view.
      destruct (accepted_state st s) as (_ & -> & _).
      apply (names_view_same els); assumption.
    + destruct (submit_invalid_state st s Hv) as (_ & _ & _ & _ & _ & He & _).
      unfold active_pages, pages in *. rewrite He. exact H1.
  - unfold step, handle, navClick. apply showPage_one_view.
    apply (names_view_same els); assumption.
  - unfold active_pages, pages in *. run_script; exact H1.
Qed.

(** X18.  On a page whose [logger-page] and [dashboard-page] are views and
    whose clicked links all lead to views, exactly one view is shown after
    load and after every event that follows. *)
Theorem one_view_at_a_time (st0 : State) (evs : list Event) :
  names_view (elements st0) (Some "logger-page") ->
  names_view (elements st0) (Some "dashboard-page") ->
  clicks_name_views (elements st0) evs ->
  List.length (active_pages (session st0 evs)) = 1%nat.
Proof.
  intros Hl Hd Hc. unfold session.
  assert (H0 : List.length (active_pages (exec DOMContentLoaded st0)) = 1%nat).
  { destruct Hl as (e & Hf & Hp).
    destruct (load_shows_logger_view st0 e Hf Hp) as [_ ->]. reflexivity. }
  pose proof (load_elements st0) as Hs.
  revert H0 Hs. generalize (exec DOMContentLoaded st0).
  induction Hc as [|ev evs Hev Hc IH]; intros st H1 Hs; [exact H1|].
  rewrite run_cons. apply IH.
  - apply (step_one_view (elements st0)); try assumption.
    constructor; [exact Hev | constructor].
  - eapply same_node_lists_trans; [exact Hs | apply step_elements].
Qed.

Lemma one_view_at_a_time_witness :
  List.length
    (active_pages
       (session example_state
          [Submit coffee; Click (mkElement "" ["nav-link"] (Some "logger-page"));
           Submit zero_amount; Timeout])) = 1%nat.
Proof.
  apply (one_view_at_a_time example_state
           [Submit coffee; Click (mkElement "" ["nav-link"] (Some "logger-page"));
            Submit zero_amount; Timeout]).
  - exists (mkElement "logger-page" ["page"; "active"] None). split; reflexivity.
  - exists (mkElement "dashboard-page" ["page"] None). split; reflexivity.
  - repeat constructor.
    exists (mkElement "logger-page" ["page"; "active"] None). split; reflexivity.
Defined.

(* ================================================================== *)
(** * Further properties: the running total *)
(* ================================================================== *)

Lemma total_app (es : list Expense) (e : Expense) :
  total (es ++ [e]) = JS.add (total es) (amount e).
Proof. unfold total. rewrite fold_left_app. reflexivity. Qed.

(** X19.  The total is a running sum: after a valid submission the total
    element shows the binary64 sum of the previous total and the parsed
    amount, whatever it showed before. *)
Theorem accepted_submission_adds_to_total (st : State) (s : Submission) :
  valid s = true ->
  totalExpenditureEl (step st (Submit s))
  = "$" ++ JS.toFixed (JS.add (total (expenses st))
                              (JS.parseFloat (sub_amount s))) 2.
Proof.
  intros Hv. rewrite (submit_valid_total st s Hv).
  rewrite (submit_valid_expenses st s Hv), total_app. reflexivity.
Qed.

Lemma accepted_submission_adds_to_total_witness :
  totalExpenditureEl (step two_records (Submit coffee))
  = "$" ++ JS.toFixed (JS.add (total (expenses two_records))
                              (JS.parseFloat (sub_amount coffee))) 2.
Proof.
  apply (accepted_submission_adds_to_total two_records coffee).
  vm_compute. reflexivity.
Defined.
